(** * super-swiper: the stack cursor and the gesture decision

    A shallow embedding of the swipeable card stack of
    Daniel-Reiling/super-swiper:

    - [Card]: the per-card gesture surface of [src/src/Card.tsx]
      (the release decision [onEnd], [triggerFullSwipe] and what the card
      calls on its parent);
    - [SuperSwiper]: the stack controller of [src/unnamed/part_000]
      (cursor, swipe history, transition flag, imperative handle), and
      [Widget], the controller composed with its active card;
    - [Revised]: the handlers of the later revision of the same controller,
      listed after the README in [src/README.md] (history capped at 50,
      [swipeUp], [onSwipedUp]).

    Numbers.  Indices are JavaScript numbers used as integers: [Z].
    Displacements and the threshold are finite doubles that the code only
    negates, takes the absolute value of and compares; these operations are
    exact on doubles, so a displacement is modelled by the rational it
    denotes ([Q]).  [NaN] and the infinities are left out.

    React.  The cursor of part_000 is a ref, read and written at once; the
    state cells are written by queued updater functions and read through the
    closures of the last render.  Two models of the mounted component are
    used:

    - [SuperSwiper.Widget] takes every event on a component that has just
      re-rendered, so that each handler sees the state as it is, and follows
      one exit animation.  It describes what a single call does, and
      sequences of calls between which the component re-renders;
    - [Live.Component] keeps the current state and the state that the last
      render saw apart, has the render as an event of its own and one exit
      animation per card.  It describes calls made in the same tick, before
      the component has re-rendered. *)

From Stdlib Require Import ZArith QArith Qabs Bool List Lia.
Import ListNotations.
Open Scope Z_scope.

(** ** Shared vocabulary ([types.ts]) *)

(** [export type SwipeDirection = 'left' | 'right' | 'up'].  The older
    declaration of the same type has only ['left' | 'right']. *)
Inductive SwipeDirection : Type := Left | Right | Up.

Definition SwipeDirection_eqb (a b : SwipeDirection) : bool :=
  match a, b with
  | Left, Left | Right, Right | Up, Up => true
  | _, _ => false
  end.

(** The callbacks of [SuperSwiperProps] that the controller may invoke on its
    embedder, with their argument. *)
Inductive Notification : Type :=
| OnSwipeStart (direction : SwipeDirection)
| OnSwipedLeft (cardIndex : Z)
| OnSwipedRight (cardIndex : Z)
| OnSwipedUp (cardIndex : Z)
| OnSwipeEnd (cardIndex : Z)
| OnSwipeBack.

(** The members of [interface SuperSwiperHandles]. *)
Inductive HandleMethod : Type :=
| swipeLeft_method
| swipeRight_method
| swipeUp_method
| swipeBack_method
| jumpToCardIndex_method.

Definition HandleMethod_eqb (a b : HandleMethod) : bool :=
  match a, b with
  | swipeLeft_method, swipeLeft_method
  | swipeRight_method, swipeRight_method
  | swipeUp_method, swipeUp_method
  | swipeBack_method, swipeBack_method
  | jumpToCardIndex_method, jumpToCardIndex_method => true
  | _, _ => false
  end.

(** The members of [interface CardHandles] that the controller calls through
    [activeCardRef]. *)
Inductive CardMethod : Type :=
| triggerSwipeLeft_method
| triggerSwipeRight_method
| triggerSwipeUp_method.

(** [a > b] on displacements. *)
Definition Qgt_bool (a b : Q) : bool := negb (Qle_bool a b).

(** [prev.slice(0, -1)]: all but the last element. *)
Definition slice_0_minus1 {A : Type} (prev : list A) : list A := removelast prev.

(** [updated.slice(-n)]: the last [n] elements (all of them when there are
    fewer). *)
Definition slice_last {A : Type} (n : nat) (updated : list A) : list A :=
  skipn (length updated - n) updated.

(** ** Handlers

    A handler reads and writes the component's state and calls embedder
    callbacks; the calls are logged in the order they are made. *)

Definition HandlerOf (St A : Type) : Type := St -> A * St * list Notification.

Definition ret {St A : Type} (a : A) : HandlerOf St A := fun s => (a, s, []).

Definition bind {St A B : Type} (m : HandlerOf St A) (k : A -> HandlerOf St B)
  : HandlerOf St B :=
  fun s =>
    let '(a, s1, log1) := m s in
    let '(b, s2, log2) := k a s1 in
    (b, s2, log1 ++ log2).

(** [callback?.(args)]. *)
Definition call {St : Type} (n : Notification) : HandlerOf St unit :=
  fun s => (tt, s, [n]).

Declare Scope handler_scope.
Delimit Scope handler_scope with handler.
Notation "x <- m ;; k" := (bind m (fun x => k))
  (at level 61, m at next level, right associativity) : handler_scope.
Notation "m ;; k" := (bind m (fun _ => k))
  (at level 61, right associativity) : handler_scope.

(** ** The gesture surface: [src/src/Card.tsx] *)

Module Card.

(** The props of [CardProps] that the card's logic reads. *)
Record CardProps : Type := {
  index : Z;
  stackPosition : Z;
  zIndex : Z;
  isActive : bool;
  swipeThreshold : Q;
  disableLeftSwipe : bool;
  disableRightSwipe : bool
}.

(** The pan event at release: displacement since the gesture began. *)
Record PanEvent : Type := {
  translationX : Q;
  translationY : Q
}.

(** The callback props through which a card can reach its parent:
    [onSwipeStart], [onSwipeComplete], [onSwipeCancel]. *)
Inductive SinkCall : Type :=
| CallSwipeStart (direction : SwipeDirection)
| CallSwipeComplete (direction : SwipeDirection)
| CallSwipeCancel.

(** What one card entry point does: the parent callbacks it invokes, in
    order, and the exit animation it leaves running on [offsetX], named by
    the direction its completion callback will report. *)
Record Reaction : Type := {
  calls : list SinkCall;
  exitAnimation : option SwipeDirection
}.

Definition nothing : Reaction := {| calls := []; exitAnimation := None |}.

(** [triggerFullSwipe] (Card.tsx 72-99). *)
Definition triggerFullSwipe (p : CardProps) (direction : SwipeDirection) : Reaction :=
  if SwipeDirection_eqb direction Left && negb (disableLeftSwipe p) then
    {| calls := [CallSwipeStart Left]; exitAnimation := Some Left |}
  else if SwipeDirection_eqb direction Right && negb (disableRightSwipe p) then
    {| calls := [CallSwipeStart Right]; exitAnimation := Some Right |}
  else nothing.

(** [triggerSwipeLeft], [triggerSwipeRight] (Card.tsx 50-57). *)
Definition triggerSwipeLeft (p : CardProps) : Reaction := triggerFullSwipe p Left.
Definition triggerSwipeRight (p : CardProps) : Reaction := triggerFullSwipe p Right.

(** [useImperativeHandle] (Card.tsx 60-63): the card's handle has the two
    triggers and no [triggerSwipeUp]. *)
Definition handle (p : CardProps) (m : CardMethod) : option Reaction :=
  match m with
  | triggerSwipeLeft_method => Some (triggerSwipeLeft p)
  | triggerSwipeRight_method => Some (triggerSwipeRight p)
  | triggerSwipeUp_method => None
  end.

(** The two branches of the release handler. *)
Inductive EndOutcome : Type :=
| FullSwipe (direction : SwipeDirection)
    (* scheduleOnRN(triggerFullSwipe, direction) *)
| SpringBack (offsetX offsetY scale : Q).
    (* the three shared values are sent back with withSpring *)

(** [panGesture.onEnd] (Card.tsx 125-145). *)
Definition onEnd (p : CardProps) (event : PanEvent) : EndOutcome :=
  let translationX := translationX event in
  let shouldSwipe := Qgt_bool (Qabs translationX) (swipeThreshold p) in
  let swipeDirection := if Qgt_bool translationX 0 then Right else Left in
  if shouldSwipe && SwipeDirection_eqb swipeDirection Left
     && negb (disableLeftSwipe p) then FullSwipe Left
  else if shouldSwipe && SwipeDirection_eqb swipeDirection Right
          && negb (disableRightSwipe p) then FullSwipe Right
  else SpringBack 0 0 1.

(** A gesture release seen from outside the card: the pan gesture is
    [.enabled(isActive)]; a committed release runs [triggerFullSwipe], the
    other branch only starts the three springs. *)
Definition release (p : CardProps) (event : PanEvent) : Reaction :=
  if isActive p then
    match onEnd p event with
    | FullSwipe direction => triggerFullSwipe p direction
    | SpringBack _ _ _ => nothing
    end
  else nothing.

(** The completion callback of the exit animation, called with
    [finished = true]: [scheduleOnRN(notifySwipeCompleted, direction)],
    that is [onSwipeComplete?.(direction)] (Card.tsx 65-70, 80-84, 92-96). *)
Definition animationFinished (direction : SwipeDirection) : list SinkCall :=
  [CallSwipeComplete direction].

(** The flag that [triggerFullSwipe] and [onEnd] test for a direction; no
    branch of either handles ['up']. *)
Definition enabledFor (p : CardProps) (direction : SwipeDirection) : bool :=
  match direction with
  | Left => negb (disableLeftSwipe p)
  | Right => negb (disableRightSwipe p)
  | Up => false
  end.

(** The commit decision of the release handler: [Some direction] when
    [onEnd] hands the release to [triggerFullSwipe] and the exit animation
    starts, [None] when the card springs back. *)
Definition commits (p : CardProps) (event : PanEvent) : option SwipeDirection :=
  match onEnd p event with
  | FullSwipe direction => exitAnimation (triggerFullSwipe p direction)
  | SpringBack _ _ _ => None
  end.

End Card.

(** ** The stack controller: [src/unnamed/part_000] *)

Module SuperSwiper.

(** The destructured props (part_000 17-34) that the logic reads.  The
    defaults of the destructuring are [defaultProps] below. *)
Record Props (T : Type) : Type := {
  cards : list T;
  stackSize : Z;
  swipeThreshold : Q;
  initialCardIndex : Z;
  disableLeftSwipe : bool;
  disableRightSwipe : bool
}.
Arguments cards {T} _.
Arguments stackSize {T} _.
Arguments swipeThreshold {T} _.
Arguments initialCardIndex {T} _.
Arguments disableLeftSwipe {T} _.
Arguments disableRightSwipe {T} _.

(** [cards.length]. *)
Definition cards_length {T : Type} (props : Props T) : Z :=
  Z.of_nat (length (cards props)).

(** The defaults of the destructuring, for a platform whose screen is
    [SCREEN_WIDTH] wide. *)
Definition defaultProps {T : Type} (SCREEN_WIDTH : Q) (cards : list T) : Props T :=
  {| cards := cards;
     stackSize := 3;
     swipeThreshold := (SCREEN_WIDTH * (25 # 100))%Q;
     initialCardIndex := 0;
     disableLeftSwipe := false;
     disableRightSwipe := false |}.

(** The component's state (part_000 37-40): [currentIndexRef.current],
    and the three [useState] cells. *)
Record State : Type := {
  currentIndex : Z;
  isTransitioning : bool;
  swipedCardIndices : list Z;
  forceRenderKey : Z
}.

(** State at mount. *)
Definition mount {T : Type} (props : Props T) : State :=
  {| currentIndex := initialCardIndex props;
     isTransitioning := false;
     swipedCardIndices := [];
     forceRenderKey := 0 |}.

Local Open Scope handler_scope.

Definition Handler (A : Type) : Type := HandlerOf State A.

Definition get_currentIndex : Handler Z := fun s => (currentIndex s, s, []).
Definition get_isTransitioning : Handler bool := fun s => (isTransitioning s, s, []).
Definition get_swipedCardIndices : Handler (list Z) :=
  fun s => (swipedCardIndices s, s, []).

Definition set_currentIndex (v : Z) : Handler unit :=
  fun s => (tt, {| currentIndex := v;
                   isTransitioning := isTransitioning s;
                   swipedCardIndices := swipedCardIndices s;
                   forceRenderKey := forceRenderKey s |}, []).

Definition setIsTransitioning (v : bool) : Handler unit :=
  fun s => (tt, {| currentIndex := currentIndex s;
                   isTransitioning := v;
                   swipedCardIndices := swipedCardIndices s;
                   forceRenderKey := forceRenderKey s |}, []).

Definition setSwipedCardIndices (f : list Z -> list Z) : Handler unit :=
  fun s => (tt, {| currentIndex := currentIndex s;
                   isTransitioning := isTransitioning s;
                   swipedCardIndices := f (swipedCardIndices s);
                   forceRenderKey := forceRenderKey s |}, []).

Definition setForceRenderKey (f : Z -> Z) : Handler unit :=
  fun s => (tt, {| currentIndex := currentIndex s;
                   isTransitioning := isTransitioning s;
                   swipedCardIndices := swipedCardIndices s;
                   forceRenderKey := f (forceRenderKey s) |}, []).

(** [handleSwipeStart] (part_000 46-49). *)
Definition handleSwipeStart (direction : SwipeDirection) : Handler unit :=
  setIsTransitioning true ;;
  call (OnSwipeStart direction).

(** [handleSwipeComplete] (part_000 52-71). *)
Definition handleSwipeComplete (direction : SwipeDirection) : Handler unit :=
  cardIndex <- get_currentIndex ;;
  setSwipedCardIndices (fun prev => prev ++ [cardIndex]) ;;
  (if SwipeDirection_eqb direction Left
   then call (OnSwipedLeft cardIndex)
   else call (OnSwipedRight cardIndex)) ;;
  call (OnSwipeEnd cardIndex) ;;
  current <- get_currentIndex ;;
  set_currentIndex (current + 1) ;;
  setIsTransitioning false.

(** [handleSwipeCancel] (part_000 74-76). *)
Definition handleSwipeCancel : Handler unit :=
  setIsTransitioning false.

(** [swipeLeft] (part_000 79-88).  The result is the method invoked on
    [activeCardRef.current], if the guard lets the call through. *)
Definition swipeLeft {T : Type} (props : Props T) : Handler (option CardMethod) :=
  transitioning <- get_isTransitioning ;;
  current <- get_currentIndex ;;
  if disableLeftSwipe props || transitioning || (current >=? cards_length props)
  then ret None
  else ret (Some triggerSwipeLeft_method).

(** [swipeRight] (part_000 91-100). *)
Definition swipeRight {T : Type} (props : Props T) : Handler (option CardMethod) :=
  transitioning <- get_isTransitioning ;;
  current <- get_currentIndex ;;
  if disableRightSwipe props || transitioning || (current >=? cards_length props)
  then ret None
  else ret (Some triggerSwipeRight_method).

(** [swipeBack] (part_000 103-111). *)
Definition swipeBack : Handler unit :=
  current <- get_currentIndex ;;
  swiped <- get_swipedCardIndices ;;
  if (current <=? 0) || (Nat.eqb (length swiped) 0)
  then ret tt
  else
    set_currentIndex (current - 1) ;;
    setSwipedCardIndices (fun prev => slice_0_minus1 prev) ;;
    call OnSwipeBack.

(** [jumpToCardIndex] (part_000 114-121). *)
Definition jumpToCardIndex {T : Type} (props : Props T) (index : Z) : Handler unit :=
  if (index <? 0) || (index >=? cards_length props)
  then ret tt
  else
    set_currentIndex index ;;
    setForceRenderKey (fun prev => prev + 1).

(** The object built by [useImperativeHandle] (part_000 124-129): the
    methods it has. *)
Definition imperativeHandle : list HandleMethod :=
  [swipeLeft_method; swipeRight_method; swipeBack_method; jumpToCardIndex_method].

Definition exposes (m : HandleMethod) : bool :=
  existsb (HandleMethod_eqb m) imperativeHandle.

(** [renderCardItem] (part_000 132-166): the props handed to [<Card>] for
    the card at [index], or [None] for [null].  The card's content and key
    are not part of the logic. *)
Definition renderCardItem {T : Type} (props : Props T) (s : State) (index : Z)
  : option Card.CardProps :=
  let currentIndex := currentIndex s in
  if (index <? currentIndex) || (index >=? currentIndex + stackSize props)
  then None
  else
    let stackPosition := index - currentIndex in
    let zIndex := cards_length props - index in
    let isActive := index =? currentIndex in
    Some {| Card.index := index;
            Card.stackPosition := stackPosition;
            Card.zIndex := zIndex;
            Card.isActive := isActive;
            Card.swipeThreshold := swipeThreshold props;
            Card.disableLeftSwipe := disableLeftSwipe props;
            Card.disableRightSwipe := disableRightSwipe props |}.

(** [renderCards] (part_000 169-175): [cards.map((card, index) => ...)],
    or nothing once the cursor has passed the last card. *)
Definition renderCards {T : Type} (props : Props T) (s : State)
  : list (option Card.CardProps) :=
  if currentIndex s >=? cards_length props
  then []
  else map (fun i => renderCardItem props s (Z.of_nat i))
           (seq 0 (length (cards props))).

(** [ref={isActive ? activeCardRef : null}] (part_000 149): the rendered
    card that holds the ref. *)
Fixpoint refHolder (rendered : list (option Card.CardProps)) : option Card.CardProps :=
  match rendered with
  | [] => None
  | Some card :: rest => if Card.isActive card then Some card else refHolder rest
  | None :: rest => refHolder rest
  end.

(** [activeCardRef.current] after the render of state [s]. *)
Definition activeCardRef {T : Type} (props : Props T) (s : State)
  : option Card.CardProps :=
  refHolder (renderCards props s).

(** The card's callback props are the three handlers (part_000 161-163). *)
Definition sink (c : Card.SinkCall) : Handler unit :=
  match c with
  | Card.CallSwipeStart direction => handleSwipeStart direction
  | Card.CallSwipeComplete direction => handleSwipeComplete direction
  | Card.CallSwipeCancel => handleSwipeCancel
  end.

Fixpoint sinkAll (cs : list Card.SinkCall) : Handler unit :=
  match cs with
  | [] => ret tt
  | c :: rest => sink c ;; sinkAll rest
  end.

(** *** The mounted widget: controller and active card together *)

(** The controller's state and the exit animation running on the active
    card's [offsetX], if any, named by the direction its callback will
    report. *)
Record Widget : Type := {
  controller : State;
  exiting : option SwipeDirection
}.

Definition mountWidget {T : Type} (props : Props T) : Widget :=
  {| controller := mount props; exiting := None |}.

(** The widget after an entry point of its active card has run: its parent
    calls are delivered in order, and an exit animation it started replaces
    the one in flight.  Only the animation of the active card is followed
    here; [Live] follows one animation per card. *)
Definition react (w : Widget) (r : Card.Reaction) : Widget * list Notification :=
  let '(_, s, log) := sinkAll (Card.calls r) (controller w) in
  ({| controller := s;
      exiting := match Card.exitAnimation r with
                 | Some direction => Some direction
                 | None => exiting w
                 end |}, log).

(** [activeCardRef.current?.method()]. *)
Definition callActiveCard {T : Type} (props : Props T) (w : Widget) (method : CardMethod)
  : Widget * list Notification :=
  match activeCardRef props (controller w) with
  | Some card =>
      match Card.handle card method with
      | Some r => react w r
      | None => (w, [])
      end
  | None => (w, [])
  end.

(** A controller handler run inside the widget. *)
Definition runHandler (w : Widget) (h : Handler unit) : Widget * list Notification :=
  let '(_, s, log) := h (controller w) in
  ({| controller := s; exiting := exiting w |}, log).

(** What can happen to a mounted widget: the embedder calls a method of
    the handle, the user releases a drag, or the exit animation's callback
    runs ([finished] is false when the animation was interrupted).  Each
    event is taken on a component that has re-rendered since the one before,
    so a handler of the handle reads the state as it is; calls made before
    that render are the subject of [Live.step]. *)
Inductive Event : Type :=
| SwipeLeft
| SwipeRight
| SwipeBack
| JumpToCardIndex (index : Z)
| PanEnd (event : Card.PanEvent)
| AnimationCallback (finished : bool).

Definition step {T : Type} (props : Props T) (w : Widget) (ev : Event)
  : Widget * list Notification :=
  match ev with
  | SwipeLeft =>
      let '(method, _, _) := swipeLeft props (controller w) in
      match method with
      | Some m => callActiveCard props w m
      | None => (w, [])
      end
  | SwipeRight =>
      let '(method, _, _) := swipeRight props (controller w) in
      match method with
      | Some m => callActiveCard props w m
      | None => (w, [])
      end
  | SwipeBack => runHandler w swipeBack
  | JumpToCardIndex index => runHandler w (jumpToCardIndex props index)
  | PanEnd event =>
      match activeCardRef props (controller w) with
      | Some card => react w (Card.release card event)
      | None => (w, [])
      end
  | AnimationCallback finished =>
      match exiting w with
      | Some direction =>
          if finished
          then
            let '(_, s, log) := sinkAll (Card.animationFinished direction) (controller w) in
            ({| controller := s; exiting := None |}, log)
          else ({| controller := controller w; exiting := None |}, [])
      | None => (w, [])
      end
  end.

(** A sequence of events, with everything the embedder is notified of. *)
Fixpoint run {T : Type} (props : Props T) (evs : list Event) (w : Widget)
  : Widget * list Notification :=
  match evs with
  | [] => (w, [])
  | ev :: rest =>
      let '(w1, log1) := step props w ev in
      let '(w2, log2) := run props rest w1 in
      (w2, log1 ++ log2)
  end.

(** Pure views of the state changes made by the handlers, used to state
    what a step does. *)
Definition withTransitioning (v : bool) (s : State) : State :=
  {| currentIndex := currentIndex s;
     isTransitioning := v;
     swipedCardIndices := swipedCardIndices s;
     forceRenderKey := forceRenderKey s |}.

Definition widgetWithTransitioning (v : bool) (w : Widget) : Widget :=
  {| controller := withTransitioning v (controller w); exiting := exiting w |}.

(** The props of the card that holds [activeCardRef] when the cursor is
    [current]. *)
Definition activeCardProps {T : Type} (props : Props T) (current : Z) : Card.CardProps :=
  {| Card.index := current;
     Card.stackPosition := 0;
     Card.zIndex := cards_length props - current;
     Card.isActive := true;
     Card.swipeThreshold := swipeThreshold props;
     Card.disableLeftSwipe := disableLeftSwipe props;
     Card.disableRightSwipe := disableRightSwipe props |}.

(** The state after [handleSwipeComplete] and after an effective
    [swipeBack] or [jumpToCardIndex]. *)
Definition completedState (s : State) : State :=
  {| currentIndex := currentIndex s + 1;
     isTransitioning := false;
     swipedCardIndices := swipedCardIndices s ++ [currentIndex s];
     forceRenderKey := forceRenderKey s |}.

Definition undoneState (s : State) : State :=
  {| currentIndex := currentIndex s - 1;
     isTransitioning := isTransitioning s;
     swipedCardIndices := removelast (swipedCardIndices s);
     forceRenderKey := forceRenderKey s |}.

Definition jumpedState (index : Z) (s : State) : State :=
  {| currentIndex := index;
     isTransitioning := isTransitioning s;
     swipedCardIndices := swipedCardIndices s;
     forceRenderKey := forceRenderKey s + 1 |}.

(** The states a mounted widget can be in. *)
Definition reachable {T : Type} (props : Props T) (w : Widget) : Prop :=
  exists evs, fst (run props evs (mountWidget props)) = w.

(** The events that can start a commit: a swipe requested through the
    handle, or a drag release. *)
Definition isCommitRequest (ev : Event) : bool :=
  match ev with
  | SwipeLeft | SwipeRight | PanEnd _ => true
  | _ => false
  end.

(** The kinds of step a widget can take; [step_transition] below shows
    that [step] takes no other. *)
Inductive transition {T : Type} (props : Props T) (w : Widget)
  : Event -> Widget -> list Notification -> Prop :=
| transition_ignored (ev : Event) :
    transition props w ev w []
| transition_started (ev : Event) (direction : SwipeDirection) :
    isCommitRequest ev = true ->
    0 <= currentIndex (controller w) < cards_length props ->
    direction = Left \/ direction = Right ->
    transition props w ev
      {| controller := withTransitioning true (controller w);
         exiting := Some direction |}
      [OnSwipeStart direction]
| transition_completed (direction : SwipeDirection) :
    exiting w = Some direction ->
    transition props w (AnimationCallback true)
      {| controller := completedState (controller w); exiting := None |}
      [if SwipeDirection_eqb direction Left
       then OnSwipedLeft (currentIndex (controller w))
       else OnSwipedRight (currentIndex (controller w));
       OnSwipeEnd (currentIndex (controller w))]
| transition_interrupted :
    transition props w (AnimationCallback false)
      {| controller := controller w; exiting := None |} []
| transition_undone :
    0 < currentIndex (controller w) ->
    swipedCardIndices (controller w) <> [] ->
    transition props w SwipeBack
      {| controller := undoneState (controller w); exiting := exiting w |}
      [OnSwipeBack]
| transition_jumped (index : Z) :
    0 <= index < cards_length props ->
    transition props w (JumpToCardIndex index)
      {| controller := jumpedState index (controller w); exiting := exiting w |}
      [].

End SuperSwiper.

(** ** The later revision of the controller: the listing in [src/README.md] *)

Module Revised.

Local Open Scope handler_scope.

(** The destructured props (README.md 583-603) that the handlers read. *)
Record Props (T : Type) : Type := {
  cards : list T;
  stackSize : Z;
  swipeThreshold : Q;
  swipeLeftEnabled : bool;
  swipeRightEnabled : bool;
  swipeUpEnabled : bool;
  swipeBackEnabled : bool
}.
Arguments cards {T} _.
Arguments stackSize {T} _.
Arguments swipeThreshold {T} _.
Arguments swipeLeftEnabled {T} _.
Arguments swipeRightEnabled {T} _.
Arguments swipeUpEnabled {T} _.
Arguments swipeBackEnabled {T} _.

Definition cards_length {T : Type} (props : Props T) : Z :=
  Z.of_nat (length (cards props)).

(** The three [useState] cells (README.md 622-624). *)
Record State : Type := {
  currentCardIndex : Z;
  isTransitioning : bool;
  swipedCardIndices : list Z
}.

Definition mount : State :=
  {| currentCardIndex := 0; isTransitioning := false; swipedCardIndices := [] |}.

Definition Handler (A : Type) : Type := HandlerOf State A.

Definition get_currentCardIndex : Handler Z := fun s => (currentCardIndex s, s, []).
Definition get_isTransitioning : Handler bool := fun s => (isTransitioning s, s, []).
Definition get_swipedCardIndices : Handler (list Z) :=
  fun s => (swipedCardIndices s, s, []).

Definition setCurrentCardIndex (f : Z -> Z) : Handler unit :=
  fun s => (tt, {| currentCardIndex := f (currentCardIndex s);
                   isTransitioning := isTransitioning s;
                   swipedCardIndices := swipedCardIndices s |}, []).

Definition setIsTransitioning (v : bool) : Handler unit :=
  fun s => (tt, {| currentCardIndex := currentCardIndex s;
                   isTransitioning := v;
                   swipedCardIndices := swipedCardIndices s |}, []).

Definition setSwipedCardIndices (f : list Z -> list Z) : Handler unit :=
  fun s => (tt, {| currentCardIndex := currentCardIndex s;
                   isTransitioning := isTransitioning s;
                   swipedCardIndices := f (swipedCardIndices s) |}, []).

Definition withTransitioning (v : bool) (s : State) : State :=
  {| currentCardIndex := currentCardIndex s;
     isTransitioning := v;
     swipedCardIndices := swipedCardIndices s |}.

(** [handleSwipeStart] (README.md 630-633). *)
Definition handleSwipeStart (direction : SwipeDirection) : Handler unit :=
  setIsTransitioning true ;;
  call (OnSwipeStart direction).

(** [handleSwipeComplete] (README.md 636-662). *)
Definition handleSwipeComplete (direction : SwipeDirection) : Handler unit :=
  cardIndex <- get_currentCardIndex ;;
  setSwipedCardIndices (fun prev =>
    let updated := prev ++ [cardIndex] in
    if (50 <? length updated)%nat then slice_last 50 updated else updated) ;;
  (if SwipeDirection_eqb direction Left then call (OnSwipedLeft cardIndex)
   else if SwipeDirection_eqb direction Right then call (OnSwipedRight cardIndex)
   else if SwipeDirection_eqb direction Up then call (OnSwipedUp cardIndex)
   else ret tt) ;;
  call (OnSwipeEnd cardIndex) ;;
  setCurrentCardIndex (fun prev => prev + 1) ;;
  setIsTransitioning false.

(** [handleSwipeCancel] (README.md 665-667). *)
Definition handleSwipeCancel : Handler unit :=
  setIsTransitioning false.

(** [swipeLeft], [swipeRight], [swipeUp] (README.md 670-703).  The result
    is the method invoked on [activeCardRef.current], if any. *)
Definition swipeLeft {T : Type} (props : Props T) : Handler (option CardMethod) :=
  transitioning <- get_isTransitioning ;;
  current <- get_currentCardIndex ;;
  if negb (swipeLeftEnabled props) || transitioning || (current >=? cards_length props)
  then ret None
  else ret (Some triggerSwipeLeft_method).

Definition swipeRight {T : Type} (props : Props T) : Handler (option CardMethod) :=
  transitioning <- get_isTransitioning ;;
  current <- get_currentCardIndex ;;
  if negb (swipeRightEnabled props) || transitioning || (current >=? cards_length props)
  then ret None
  else ret (Some triggerSwipeRight_method).

Definition swipeUp {T : Type} (props : Props T) : Handler (option CardMethod) :=
  transitioning <- get_isTransitioning ;;
  current <- get_currentCardIndex ;;
  if negb (swipeUpEnabled props) || transitioning || (current >=? cards_length props)
  then ret None
  else ret (Some triggerSwipeUp_method).

(** [swipeBack] (README.md 706-714). *)
Definition swipeBack : Handler unit :=
  current <- get_currentCardIndex ;;
  swiped <- get_swipedCardIndices ;;
  if (current <=? 0) || (Nat.eqb (length swiped) 0)
  then ret tt
  else
    setCurrentCardIndex (fun prev => prev - 1) ;;
    setSwipedCardIndices (fun prev => slice_0_minus1 prev) ;;
    call OnSwipeBack.

(** [swipeBack] as the handle holds it between two renders: the guard
    reads the [currentCardIndex] and the [swipedCardIndices] of the render
    that built the handle, [seen]; the two updater functions run on the
    current state. *)
Definition swipeBackSeen (seen : State) : Handler unit :=
  if (currentCardIndex seen <=? 0) || (Nat.eqb (length (swipedCardIndices seen)) 0)
  then ret tt
  else
    setCurrentCardIndex (fun prev => prev - 1) ;;
    setSwipedCardIndices (fun prev => slice_0_minus1 prev) ;;
    call OnSwipeBack.

(** [jumpToCardIndex] (README.md 717-723). *)
Definition jumpToCardIndex {T : Type} (props : Props T) (index : Z) : Handler unit :=
  if (index <? 0) || (index >=? cards_length props)
  then ret tt
  else setCurrentCardIndex (fun _ => index).

(** The object built by [useImperativeHandle] (README.md 726-732). *)
Definition imperativeHandle : list HandleMethod :=
  [swipeLeft_method; swipeRight_method; swipeUp_method; swipeBack_method;
   jumpToCardIndex_method].

Definition exposes (m : HandleMethod) : bool :=
  existsb (HandleMethod_eqb m) imperativeHandle.

(** Every entry point of this controller: the handle's methods and the
    three callbacks it hands to its cards.  The card of this revision is
    not part of the sources, so the entry points are taken in any order. *)
Inductive Entry : Type :=
| HandleSwipeStart (direction : SwipeDirection)
| HandleSwipeComplete (direction : SwipeDirection)
| HandleSwipeCancel
| SwipeLeft
| SwipeRight
| SwipeUp
| SwipeBack
| JumpToCardIndex (index : Z).

Definition enter {T : Type} (props : Props T) (s : State) (e : Entry) : State :=
  match e with
  | HandleSwipeStart d => snd (fst (handleSwipeStart d s))
  | HandleSwipeComplete d => snd (fst (handleSwipeComplete d s))
  | HandleSwipeCancel => snd (fst (handleSwipeCancel s))
  | SwipeLeft => snd (fst (swipeLeft props s))
  | SwipeRight => snd (fst (swipeRight props s))
  | SwipeUp => snd (fst (swipeUp props s))
  | SwipeBack => snd (fst (swipeBack s))
  | JumpToCardIndex i => snd (fst (jumpToCardIndex props i s))
  end.

Definition reachable {T : Type} (props : Props T) (s : State) : Prop :=
  exists es, fold_left (enter props) es mount = s.

End Revised.

(** ** The controller between renders: [src/unnamed/part_000] *)

Module Live.

Local Open Scope handler_scope.

(** The component as it stands between two renders.  [current] is
    [currentIndexRef.current] and the three state cells with every update
    queued so far applied; [rendered] is the state that the last render saw:
    the handlers of the handle are closures of that render, so the
    [isTransitioning] and [swipedCardIndices] they test are its values, and
    the mounted cards and [activeCardRef] are those of its cursor.
    [animations] are the exit animations in flight, each on the [offsetX] of
    the card with the given index. *)
Record Component : Type := {
  current : SuperSwiper.State;
  rendered : SuperSwiper.State;
  animations : list (Z * SwipeDirection)
}.

Definition mount {T : Type} (props : SuperSwiper.Props T) : Component :=
  {| current := SuperSwiper.mount props;
     rendered := SuperSwiper.mount props;
     animations := [] |}.

(** [swipeLeft] (part_000 79-88) as created by the render that saw [seen]:
    [isTransitioning] is that render's constant, [currentIndexRef.current] is
    read when the call is made. *)
Definition swipeLeft {T : Type} (props : SuperSwiper.Props T) (seen : SuperSwiper.State)
  : SuperSwiper.Handler (option CardMethod) :=
  current <- SuperSwiper.get_currentIndex ;;
  if SuperSwiper.disableLeftSwipe props || SuperSwiper.isTransitioning seen
     || (current >=? SuperSwiper.cards_length props)
  then ret None
  else ret (Some triggerSwipeLeft_method).

(** [swipeRight] (part_000 91-100), likewise. *)
Definition swipeRight {T : Type} (props : SuperSwiper.Props T) (seen : SuperSwiper.State)
  : SuperSwiper.Handler (option CardMethod) :=
  current <- SuperSwiper.get_currentIndex ;;
  if SuperSwiper.disableRightSwipe props || SuperSwiper.isTransitioning seen
     || (current >=? SuperSwiper.cards_length props)
  then ret None
  else ret (Some triggerSwipeRight_method).

(** [swipeBack] (part_000 103-111), likewise: [swipedCardIndices.length] is
    the render's, the two updates are applied to what is current. *)
Definition swipeBack (seen : SuperSwiper.State) : SuperSwiper.Handler unit :=
  current <- SuperSwiper.get_currentIndex ;;
  if (current <=? 0) || Nat.eqb (length (SuperSwiper.swipedCardIndices seen)) 0
  then ret tt
  else
    SuperSwiper.set_currentIndex (current - 1) ;;
    SuperSwiper.setSwipedCardIndices (fun prev => slice_0_minus1 prev) ;;
    call OnSwipeBack.

(** A [withTiming] assigned to a card's [offsetX] replaces the animation
    running on it; the replaced one reports [finished = false]
    (Card.tsx 77-97). *)
Definition stopAnimation (card : Z) (running : list (Z * SwipeDirection))
  : list (Z * SwipeDirection) :=
  filter (fun a => negb (fst a =? card)) running.

Definition startAnimation (card : Z) (direction : SwipeDirection)
  (running : list (Z * SwipeDirection)) : list (Z * SwipeDirection) :=
  (card, direction) :: stopAnimation card running.

Fixpoint runningOn (card : Z) (running : list (Z * SwipeDirection))
  : option SwipeDirection :=
  match running with
  | [] => None
  | (c, direction) :: rest => if c =? card then Some direction else runningOn card rest
  end.

(** The component after an entry point of [card] has run. *)
Definition react (c : Component) (card : Card.CardProps) (r : Card.Reaction)
  : Component * list Notification :=
  let '(_, s, log) := SuperSwiper.sinkAll (Card.calls r) (current c) in
  ({| current := s;
      rendered := rendered c;
      animations := match Card.exitAnimation r with
                    | Some direction =>
                        startAnimation (Card.index card) direction (animations c)
                    | None => animations c
                    end |}, log).

(** [activeCardRef.current?.method()]: the ref was attached by the last
    render. *)
Definition callActiveCard {T : Type} (props : SuperSwiper.Props T) (c : Component)
  (method : CardMethod) : Component * list Notification :=
  match SuperSwiper.activeCardRef props (rendered c) with
  | Some card =>
      match Card.handle card method with
      | Some r => react c card r
      | None => (c, [])
      end
  | None => (c, [])
  end.

Definition runHandler (c : Component) (h : SuperSwiper.Handler unit)
  : Component * list Notification :=
  let '(_, s, log) := h (current c) in
  ({| current := s; rendered := rendered c; animations := animations c |}, log).

(** What can happen to the component: a call of the handle, a drag release
    on the active card, the callback of the exit animation of a card, or a
    render, which makes the current state the one handlers and cards see. *)
Inductive Event : Type :=
| SwipeLeft
| SwipeRight
| SwipeBack
| JumpToCardIndex (index : Z)
| PanEnd (event : Card.PanEvent)
| AnimationCallback (card : Z) (finished : bool)
| Render.

Definition step {T : Type} (props : SuperSwiper.Props T) (c : Component) (ev : Event)
  : Component * list Notification :=
  match ev with
  | SwipeLeft =>
      let '(method, _, _) := swipeLeft props (rendered c) (current c) in
      match method with
      | Some m => callActiveCard props c m
      | None => (c, [])
      end
  | SwipeRight =>
      let '(method, _, _) := swipeRight props (rendered c) (current c) in
      match method with
      | Some m => callActiveCard props c m
      | None => (c, [])
      end
  | SwipeBack => runHandler c (swipeBack (rendered c))
  | JumpToCardIndex index => runHandler c (SuperSwiper.jumpToCardIndex props index)
  | PanEnd event =>
      match SuperSwiper.activeCardRef props (rendered c) with
      | Some card => react c card (Card.release card event)
      | None => (c, [])
      end
  | AnimationCallback card finished =>
      match runningOn card (animations c) with
      | Some direction =>
          if finished
          then
            let '(_, s, log) :=
              SuperSwiper.sinkAll (Card.animationFinished direction) (current c) in
            ({| current := s;
                rendered := rendered c;
                animations := stopAnimation card (animations c) |}, log)
          else ({| current := current c;
                   rendered := rendered c;
                   animations := stopAnimation card (animations c) |}, [])
      | None => (c, [])
      end
  | Render =>
      ({| current := current c; rendered := current c; animations := animations c |}, [])
  end.

Fixpoint run {T : Type} (props : SuperSwiper.Props T) (evs : list Event) (c : Component)
  : Component * list Notification :=
  match evs with
  | [] => (c, [])
  | ev :: rest =>
      let '(c1, log1) := step props c ev in
      let '(c2, log2) := run props rest c1 in
      (c2, log1 ++ log2)
  end.

Definition reachable {T : Type} (props : SuperSwiper.Props T) (c : Component) : Prop :=
  exists evs, fst (run props evs (mount props)) = c.


(** The events that can start a commit. *)
Definition isCommitRequest (ev : Event) : bool :=
  match ev with
  | SwipeLeft | SwipeRight | PanEnd _ => true
  | _ => false
  end.

(** The kinds of change a step can make to the current state;
    [Live_step_change] shows that [step] makes no other. *)
Inductive change {T : Type} (props : SuperSwiper.Props T) (c : Component)
  : Event -> SuperSwiper.State -> list Notification -> Prop :=
| change_none (ev : Event) :
    change props c ev (current c) []
| change_started (ev : Event) (direction : SwipeDirection) :
    isCommitRequest ev = true ->
    change props c ev (SuperSwiper.withTransitioning true (current c))
      [OnSwipeStart direction]
| change_completed (card : Z) (direction : SwipeDirection) :
    change props c (AnimationCallback card true)
      (SuperSwiper.completedState (current c))
      [if SwipeDirection_eqb direction Left
       then OnSwipedLeft (SuperSwiper.currentIndex (current c))
       else OnSwipedRight (SuperSwiper.currentIndex (current c));
       OnSwipeEnd (SuperSwiper.currentIndex (current c))]
| change_undone :
    0 < SuperSwiper.currentIndex (current c) ->
    change props c SwipeBack (SuperSwiper.undoneState (current c)) [OnSwipeBack]
| change_jumped (index : Z) :
    0 <= index < SuperSwiper.cards_length props ->
    change props c (JumpToCardIndex index)
      (SuperSwiper.jumpedState index (current c)) [].




End Live.

(** ** Vocabulary of the statements *)

(** The specification's direction-specific completion notification:
    swipe-committed-left, swipe-committed-right and swipe-committed-up, each
    carrying the index of the consumed card. *)
Definition spec_committedNotification (direction : SwipeDirection) (cardIndex : Z)
  : Notification :=
  match direction with
  | Left => OnSwipedLeft cardIndex
  | Right => OnSwipedRight cardIndex
  | Up => OnSwipedUp cardIndex
  end.

(** The indices [first, first + 1, ..., first + n - 1]. *)
Definition consumedIndices (first : Z) (n : nat) : list Z :=
  map (fun k => first + Z.of_nat k) (seq 0 n).

(** The widget after [n] commits and nothing else. *)
Definition afterCommits {T : Type} (props : SuperSwiper.Props T) (n : nat)
  : SuperSwiper.Widget :=
  {| SuperSwiper.controller :=
       {| SuperSwiper.currentIndex := SuperSwiper.initialCardIndex props + Z.of_nat n;
          SuperSwiper.isTransitioning := false;
          SuperSwiper.swipedCardIndices :=
            consumedIndices (SuperSwiper.initialCardIndex props) n;
          SuperSwiper.forceRenderKey := 0 |};
     SuperSwiper.exiting := None |}.

(** [n] programmatic right swipes, each followed by the completion of its
    exit animation. *)
Fixpoint swipeRightTimes (n : nat) : list SuperSwiper.Event :=
  match n with
  | O => []
  | S n' => SuperSwiper.SwipeRight :: SuperSwiper.AnimationCallback true
            :: swipeRightTimes n'
  end.

(** Five cards on a 400 wide screen (threshold 100), all defaults. *)
Definition fiveCards : SuperSwiper.Props nat :=
  SuperSwiper.defaultProps 400 [1; 2; 3; 4; 5]%nat.

(** The cursor stays on a card or just past the last one, and stays on a
    card while an exit animation is in flight. *)
Definition cursorInRange {T : Type} (props : SuperSwiper.Props T)
  (w : SuperSwiper.Widget) : Prop :=
  0 <= SuperSwiper.currentIndex (SuperSwiper.controller w)
    <= SuperSwiper.cards_length props /\
  (SuperSwiper.exiting w <> None ->
   SuperSwiper.currentIndex (SuperSwiper.controller w)
     < SuperSwiper.cards_length props).

(** Five cards in the later revision, all directions enabled. *)
Definition fiveCardsRevised : Revised.Props nat :=
  {| Revised.cards := [1; 2; 3; 4; 5]%nat;
     Revised.stackSize := 3;
     Revised.swipeThreshold := 100;
     Revised.swipeLeftEnabled := true;
     Revised.swipeRightEnabled := true;
     Revised.swipeUpEnabled := true;
     Revised.swipeBackEnabled := true |}.

(** Five cards with the starting index set past the last card. *)
Definition fiveCardsFromSeven : SuperSwiper.Props nat :=
  {| SuperSwiper.cards := [1; 2; 3; 4; 5]%nat;
     SuperSwiper.stackSize := 3;
     SuperSwiper.swipeThreshold := 100;
     SuperSwiper.initialCardIndex := 7;
     SuperSwiper.disableLeftSwipe := false;
     SuperSwiper.disableRightSwipe := false |}.

(** The active card of [fiveCards] at mount: threshold 100, both directions
    enabled. *)
Definition topCard : Card.CardProps := SuperSwiper.activeCardProps fiveCards 0.

(** ** Vocabulary of the further properties *)

(** The indices of the cards that a render of state [s] mounts. *)
Definition visibleIndices {T : Type} (props : SuperSwiper.Props T)
  (s : SuperSwiper.State) : list Z :=
  flat_map (fun rendered => match rendered with
                            | Some card => [Card.index card]
                            | None => []
                            end)
           (SuperSwiper.renderCards props s).

(** The widget right after a card has accepted a swipe: [handleSwipeStart]
    has run and the exit animation is in flight. *)
Definition startedWidget (direction : SwipeDirection) (w : SuperSwiper.Widget)
  : SuperSwiper.Widget :=
  {| SuperSwiper.controller :=
       SuperSwiper.withTransitioning true (SuperSwiper.controller w);
     SuperSwiper.exiting := Some direction |}.

(** Whether the render of the widget's state attaches [activeCardRef] to a
    card: the cursor is on a card and the window is not empty. *)
Definition hasActiveCard {T : Type} (props : SuperSwiper.Props T)
  (w : SuperSwiper.Widget) : bool :=
  (0 <=? SuperSwiper.currentIndex (SuperSwiper.controller w))
  && (SuperSwiper.currentIndex (SuperSwiper.controller w)
      <? SuperSwiper.cards_length props)
  && (0 <? SuperSwiper.stackSize props).

(** The events that are calls of a method of the handle. *)
Definition handleCall (ev : SuperSwiper.Event) : bool :=
  match ev with
  | SuperSwiper.SwipeLeft | SuperSwiper.SwipeRight
  | SuperSwiper.SwipeBack | SuperSwiper.JumpToCardIndex _ => true
  | _ => false
  end.

(** The index carried by a completion notification. *)
Definition committedIndex (n : Notification) : option Z :=
  match n with
  | OnSwipedLeft i | OnSwipedRight i | OnSwipedUp i | OnSwipeEnd i => Some i
  | _ => None
  end.

(** What the embedder hears of one programmatic right swipe of the card at
    [cardIndex]. *)
Definition rightSwipeNotifications (cardIndex : Z) : list Notification :=
  [OnSwipeStart Right; OnSwipedRight cardIndex; OnSwipeEnd cardIndex].

(** The advisory messages of the later revision (README.md 609-619),
    in the order they are logged: 'stackSize must be greater than 0',
    'swipeThreshold must be greater than 0', 'cardScaleStep should be between
    0 and 1'. *)
Inductive Warning : Type :=
| StackSizeWarning
| SwipeThresholdWarning
| CardScaleStepWarning.

(** The prop validation of the later revision (README.md 609-619): the
    [console.warn] calls made during a render, given [__DEV__]. *)
Definition devWarnings (DEV : bool) (stackSize : Z) (swipeThreshold cardScaleStep : Q)
  : list Warning :=
  if DEV then
    (if stackSize <=? 0 then [StackSizeWarning] else [])
    ++ (if Qle_bool swipeThreshold 0 then [SwipeThresholdWarning] else [])
    ++ (if Qgt_bool 0 cardScaleStep || Qgt_bool cardScaleStep 1
        then [CardScaleStepWarning] else [])
  else [].

(** The later controller after [handleSwipeComplete] has run once for each
    direction of [directions], from mount. *)
Definition revisedAfterCompletions {T : Type} (props : Revised.Props T)
  (directions : list SwipeDirection) : Revised.State :=
  fold_left (Revised.enter props) (map Revised.HandleSwipeComplete directions)
            Revised.mount.

(** [k] calls of the later [swipeBack], the component re-rendering after
    each of them. *)
Fixpoint revisedSwipeBackRendered (k : nat) (s : Revised.State) : Revised.State :=
  match k with
  | O => s
  | S k' => revisedSwipeBackRendered k' (snd (fst (Revised.swipeBackSeen s s)))
  end.

(** [k] calls of the later [swipeBack] in one tick, all through the handle
    of the render that saw [seen]. *)
Fixpoint revisedSwipeBackInTick (seen : Revised.State) (k : nat) (s : Revised.State)
  : Revised.State :=
  match k with
  | O => s
  | S k' => revisedSwipeBackInTick seen k' (snd (fst (Revised.swipeBackSeen seen s)))
  end.

(** Whether the controller's props disable a direction; the controller has
    no flag for ['up'] and its card never starts an exit animation for it. *)
Definition disabledIn {T : Type} (props : SuperSwiper.Props T)
  (direction : SwipeDirection) : bool :=
  match direction with
  | Left => SuperSwiper.disableLeftSwipe props
  | Right => SuperSwiper.disableRightSwipe props
  | Up => true
  end.

(** Only enabled directions are in flight. *)
Definition exitingEnabled {T : Type} (props : SuperSwiper.Props T)
  (w : SuperSwiper.Widget) : Prop :=
  forall d, SuperSwiper.exiting w = Some d -> disabledIn props d = false.

(** A notification that names no disabled direction. *)
Definition quietAbout {T : Type} (props : SuperSwiper.Props T)
  (n : Notification) : Prop :=
  forall d, disabledIn props d = true ->
            n <> OnSwipeStart d /\ forall i, n <> spec_committedNotification d i.

(** Five cards with swiping left disabled. *)
Definition leftDisabled : SuperSwiper.Props nat :=
  {| SuperSwiper.cards := [1; 2; 3; 4; 5]%nat;
     SuperSwiper.stackSize := 3;
     SuperSwiper.swipeThreshold := 100;
     SuperSwiper.initialCardIndex := 0;
     SuperSwiper.disableLeftSwipe := true;
     SuperSwiper.disableRightSwipe := false |}.

(** What [handleSwipeComplete] reports when the animation in flight is
    [direction]. *)
Definition completionNotifications (direction : SwipeDirection) (cardIndex : Z)
  : list Notification :=
  [if SwipeDirection_eqb direction Left
   then OnSwipedLeft cardIndex else OnSwipedRight cardIndex;
   OnSwipeEnd cardIndex].

(** The number of [onSwipeStart] calls and of [onSwipeEnd] calls in a log, and
    whether an exit animation is in flight, as a number. *)
Definition startsIn (log : list Notification) : nat :=
  length (filter (fun n => match n with OnSwipeStart _ => true | _ => false end) log).

Definition endsIn (log : list Notification) : nat :=
  length (filter (fun n => match n with OnSwipeEnd _ => true | _ => false end) log).

Definition inFlight (w : SuperSwiper.Widget) : nat :=
  match SuperSwiper.exiting w with
  | Some _ => 1
  | None => 0
  end.

(** ** Vocabulary of the statements about the component between renders *)


(** Whether every [jumpToCardIndex] of a run is called with an index that
    is at least the length the history has at that moment. *)
Fixpoint jumpsClearHistory {T : Type} (props : SuperSwiper.Props T)
  (evs : list Live.Event) (c : Live.Component) : bool :=
  match evs with
  | [] => true
  | ev :: rest =>
      match ev with
      | Live.JumpToCardIndex index =>
          Z.of_nat (length (SuperSwiper.swipedCardIndices (Live.current c))) <=? index
      | _ => true
      end
      && jumpsClearHistory props rest (fst (Live.step props c ev))
  end.

(** Events other than [jumpToCardIndex]. *)
Definition notJump (ev : Live.Event) : bool :=
  match ev with
  | Live.JumpToCardIndex _ => false
  | _ => true
  end.




(** The cursor is not negative and the history is no longer than it. *)
Definition historyWithinCursor (s : SuperSwiper.State) : Prop :=
  0 <= SuperSwiper.currentIndex s /\
  Z.of_nat (length (SuperSwiper.swipedCardIndices s)) <= SuperSwiper.currentIndex s.

(** The component after the active card has accepted a swipe. *)
Definition startedFrom (c : Live.Component) (direction : SwipeDirection)
  : Live.Component :=
  {| Live.current := SuperSwiper.withTransitioning true (Live.current c);
     Live.rendered := Live.rendered c;
     Live.animations :=
       Live.startAnimation (SuperSwiper.currentIndex (Live.rendered c)) direction
         (Live.animations c) |}.

(** A card whose threshold is negative, both directions enabled. *)
Definition negativeThresholdCard : Card.CardProps :=
  {| Card.index := 0; Card.stackPosition := 0; Card.zIndex := 5;
     Card.isActive := true; Card.swipeThreshold := -10;
     Card.disableLeftSwipe := false; Card.disableRightSwipe := false |}.

(** * Properties *)

(** ** Displacement comparisons *)

Lemma Qgt_bool_iff (a b : Q) : Qgt_bool a b = true <-> (b < a)%Q.
Proof.
  unfold Qgt_bool. rewrite negb_true_iff. split.
  - intros H. apply Qnot_le_lt. intros Hle.
    apply Qle_bool_iff in Hle. congruence.
  - intros H. destruct (Qle_bool a b) eqn:E; [|reflexivity].
    apply Qle_bool_iff in E. exfalso. exact (Qlt_not_le _ _ H E).
Qed.

Lemma Qgt_bool_false_iff (a b : Q) : Qgt_bool a b = false <-> (a <= b)%Q.
Proof.
  unfold Qgt_bool. rewrite negb_false_iff. apply Qle_bool_iff.
Qed.

Lemma Qgt_bool_wd (a a' b : Q) : (a == a')%Q -> Qgt_bool a b = Qgt_bool a' b.
Proof.
  intros H. unfold Qgt_bool. f_equal. apply Qleb_comp; [exact H | reflexivity].
Qed.

(** ** Which card holds the ref *)

Section ActiveCard.

Context {T : Type} (props : SuperSwiper.Props T) (s : SuperSwiper.State).

Let current := SuperSwiper.currentIndex s.

Lemma refHolder_window (n start : nat) :
  SuperSwiper.refHolder
    (map (fun i => SuperSwiper.renderCardItem props s (Z.of_nat i)) (seq start n))
  = if (Z.of_nat start <=? current) && (current <? Z.of_nat (start + n))
       && (0 <? SuperSwiper.stackSize props)
    then Some (SuperSwiper.activeCardProps props current)
    else None.
Proof.
  revert start. induction n as [|n IH]; intros start.
  - cbn [seq map SuperSwiper.refHolder].
    destruct (Z.leb_spec (Z.of_nat start) current);
      destruct (Z.ltb_spec current (Z.of_nat (start + 0))); cbn; try reflexivity; lia.
  - cbn [seq map SuperSwiper.refHolder].
    unfold SuperSwiper.renderCardItem at 1. fold current.
    rewrite IH.
    destruct (Z.ltb_spec (Z.of_nat start) current) as [Hlt|Hge]; cbn [orb].
    + destruct (Z.leb_spec (Z.of_nat (S start)) current);
        destruct (Z.leb_spec (Z.of_nat start) current); try lia.
      replace (Z.of_nat (S start + n)) with (Z.of_nat (start + S n)) by lia.
      reflexivity.
    + destruct (Z.geb_spec (Z.of_nat start) (current + SuperSwiper.stackSize props))
        as [Hout|Hin].
      * destruct (Z.leb_spec (Z.of_nat (S start)) current); try lia.
        cbn [andb].
        destruct (Z.leb_spec (Z.of_nat start) current); cbn [andb]; [|reflexivity].
        destruct (Z.ltb_spec 0 (SuperSwiper.stackSize props)); [lia|].
        rewrite andb_false_r. reflexivity.
      * cbn [Card.isActive].
        destruct (Z.eqb_spec (Z.of_nat start) current) as [Heq|Hne].
        -- destruct (Z.leb_spec (Z.of_nat start) current); try lia.
           destruct (Z.ltb_spec current (Z.of_nat (start + S n))); try lia.
           destruct (Z.ltb_spec 0 (SuperSwiper.stackSize props)); try lia.
           cbn [andb]. unfold SuperSwiper.activeCardProps.
           rewrite Heq. replace (current - current) with 0 by lia. reflexivity.
        -- destruct (Z.leb_spec (Z.of_nat (S start)) current); try lia.
           destruct (Z.leb_spec (Z.of_nat start) current); try lia.
           reflexivity.
Qed.

(** [activeCardRef.current] is the card at the cursor when the cursor is
    on a card and the window is not empty, and [null] otherwise. *)
Lemma activeCardRef_spec :
  SuperSwiper.activeCardRef props s
  = if (0 <=? current) && (current <? SuperSwiper.cards_length props)
       && (0 <? SuperSwiper.stackSize props)
    then Some (SuperSwiper.activeCardProps props current)
    else None.
Proof.
  unfold SuperSwiper.activeCardRef, SuperSwiper.renderCards. fold current.
  destruct (Z.geb_spec current (SuperSwiper.cards_length props)) as [Hge|Hlt].
  - cbn [SuperSwiper.refHolder].
    destruct (Z.ltb_spec current (SuperSwiper.cards_length props)); try lia.
    rewrite andb_false_r. reflexivity.
  - rewrite refHolder_window. reflexivity.
Qed.

Lemma activeCardRef_Some (card : Card.CardProps) :
  SuperSwiper.activeCardRef props s = Some card ->
  0 <= current < SuperSwiper.cards_length props /\
  card = SuperSwiper.activeCardProps props current.
Proof.
  rewrite activeCardRef_spec.
  destruct (Z.leb_spec 0 current); cbn [andb]; [|discriminate].
  destruct (Z.ltb_spec current (SuperSwiper.cards_length props)); cbn [andb]; [|discriminate].
  destruct (0 <? SuperSwiper.stackSize props); [|discriminate].
  intros H'. injection H' as <-. split; [lia | reflexivity].
Qed.

End ActiveCard.

(** ** What a step can do *)

Ltac unfold_handlers :=
  unfold SuperSwiper.handleSwipeStart, SuperSwiper.handleSwipeComplete,
    SuperSwiper.handleSwipeCancel, SuperSwiper.swipeLeft, SuperSwiper.swipeRight,
    SuperSwiper.swipeBack, SuperSwiper.jumpToCardIndex,
    SuperSwiper.get_currentIndex, SuperSwiper.get_isTransitioning,
    SuperSwiper.get_swipedCardIndices, SuperSwiper.set_currentIndex,
    SuperSwiper.setIsTransitioning, SuperSwiper.setSwipedCardIndices,
    SuperSwiper.setForceRenderKey, bind, ret, call.

Lemma handleSwipeStart_eq (direction : SwipeDirection) (s : SuperSwiper.State) :
  SuperSwiper.handleSwipeStart direction s
  = (tt, SuperSwiper.withTransitioning true s, [OnSwipeStart direction]).
Proof. reflexivity. Qed.

Lemma handleSwipeComplete_eq (direction : SwipeDirection) (s : SuperSwiper.State) :
  SuperSwiper.handleSwipeComplete direction s
  = (tt, SuperSwiper.completedState s,
     [if SwipeDirection_eqb direction Left
      then OnSwipedLeft (SuperSwiper.currentIndex s)
      else OnSwipedRight (SuperSwiper.currentIndex s);
      OnSwipeEnd (SuperSwiper.currentIndex s)]).
Proof.
  unfold_handlers. destruct (SwipeDirection_eqb direction Left); reflexivity.
Qed.

Lemma handleSwipeCancel_eq (s : SuperSwiper.State) :
  SuperSwiper.handleSwipeCancel s = (tt, SuperSwiper.withTransitioning false s, []).
Proof. reflexivity. Qed.

Lemma swipeBack_eq (s : SuperSwiper.State) :
  SuperSwiper.swipeBack s
  = if (SuperSwiper.currentIndex s <=? 0)
       || Nat.eqb (length (SuperSwiper.swipedCardIndices s)) 0
    then (tt, s, [])
    else (tt, SuperSwiper.undoneState s, [OnSwipeBack]).
Proof.
  unfold_handlers. cbn.
  destruct ((SuperSwiper.currentIndex s <=? 0)
            || Nat.eqb (length (SuperSwiper.swipedCardIndices s)) 0); reflexivity.
Qed.

Lemma jumpToCardIndex_eq {T : Type} (props : SuperSwiper.Props T) (index : Z)
  (s : SuperSwiper.State) :
  SuperSwiper.jumpToCardIndex props index s
  = if (index <? 0) || (index >=? SuperSwiper.cards_length props)
    then (tt, s, [])
    else (tt, SuperSwiper.jumpedState index s, []).
Proof.
  unfold_handlers.
  destruct ((index <? 0) || (index >=? SuperSwiper.cards_length props)); reflexivity.
Qed.

(** A card entry point either does nothing or calls [onSwipeStart] and
    starts the exit animation, in the left or the right direction. *)
Lemma triggerFullSwipe_cases (p : Card.CardProps) (direction : SwipeDirection) :
  Card.triggerFullSwipe p direction = Card.nothing \/
  (direction = Left \/ direction = Right) /\
  Card.enabledFor p direction = true /\
  Card.triggerFullSwipe p direction
  = {| Card.calls := [Card.CallSwipeStart direction];
       Card.exitAnimation := Some direction |}.
Proof.
  unfold Card.triggerFullSwipe, Card.enabledFor.
  destruct direction, (Card.disableLeftSwipe p), (Card.disableRightSwipe p);
    cbn; auto.
Qed.

(** Delivering the completion callback of the exit animation runs
    [handleSwipeComplete]. *)
Lemma animationFinished_eq (direction : SwipeDirection) (s : SuperSwiper.State) :
  SuperSwiper.sinkAll (Card.animationFinished direction) s
  = (tt, SuperSwiper.completedState s,
     [if SwipeDirection_eqb direction Left
      then OnSwipedLeft (SuperSwiper.currentIndex s)
      else OnSwipedRight (SuperSwiper.currentIndex s);
      OnSwipeEnd (SuperSwiper.currentIndex s)]).
Proof.
  cbn [Card.animationFinished SuperSwiper.sinkAll SuperSwiper.sink].
  unfold bind, ret. rewrite handleSwipeComplete_eq. reflexivity.
Qed.

Lemma react_nothing (w : SuperSwiper.Widget) :
  SuperSwiper.react w Card.nothing = (w, []).
Proof. destruct w; reflexivity. Qed.

Lemma react_started (w : SuperSwiper.Widget) (direction : SwipeDirection) :
  SuperSwiper.react w
    {| Card.calls := [Card.CallSwipeStart direction];
       Card.exitAnimation := Some direction |}
  = ({| SuperSwiper.controller :=
          SuperSwiper.withTransitioning true (SuperSwiper.controller w);
        SuperSwiper.exiting := Some direction |},
     [OnSwipeStart direction]).
Proof. reflexivity. Qed.

Section Steps.

Context {T : Type} (props : SuperSwiper.Props T).

(** The effect of a call that reached [triggerFullSwipe] on the active
    card. *)
Lemma react_trigger (w : SuperSwiper.Widget) (ev : SuperSwiper.Event)
  (card : Card.CardProps) (direction : SwipeDirection) :
  SuperSwiper.isCommitRequest ev = true ->
  SuperSwiper.activeCardRef props (SuperSwiper.controller w) = Some card ->
  SuperSwiper.transition props w ev
    (fst (SuperSwiper.react w (Card.triggerFullSwipe card direction)))
    (snd (SuperSwiper.react w (Card.triggerFullSwipe card direction))).
Proof.
  intros Hev Hcard. apply activeCardRef_Some in Hcard as [Hrange _].
  destruct (triggerFullSwipe_cases card direction) as [-> | (Hd & _ & ->)].
  - rewrite react_nothing. constructor.
  - rewrite react_started. cbn [fst snd].
    apply SuperSwiper.transition_started; assumption.
Qed.

Lemma callActiveCard_transition (w : SuperSwiper.Widget) (ev : SuperSwiper.Event)
  (m : CardMethod) :
  SuperSwiper.isCommitRequest ev = true ->
  SuperSwiper.transition props w ev
    (fst (SuperSwiper.callActiveCard props w m))
    (snd (SuperSwiper.callActiveCard props w m)).
Proof.
  intros Hev. unfold SuperSwiper.callActiveCard.
  destruct (SuperSwiper.activeCardRef props (SuperSwiper.controller w)) as [card|] eqn:Hcard;
    [|constructor].
  destruct m; cbn [Card.handle]; try constructor;
    unfold Card.triggerSwipeLeft, Card.triggerSwipeRight;
    apply react_trigger; assumption.
Qed.

(** Every step of the widget is one of the transitions. *)
Lemma step_transition (w : SuperSwiper.Widget) (ev : SuperSwiper.Event) :
  SuperSwiper.transition props w ev
    (fst (SuperSwiper.step props w ev)) (snd (SuperSwiper.step props w ev)).
Proof.
  destruct ev as [ | | | index | event | finished]; cbn [SuperSwiper.step].
  - destruct (SuperSwiper.swipeLeft props (SuperSwiper.controller w)) as [[[m|] ?] ?];
      [apply callActiveCard_transition; reflexivity | constructor].
  - destruct (SuperSwiper.swipeRight props (SuperSwiper.controller w)) as [[[m|] ?] ?];
      [apply callActiveCard_transition; reflexivity | constructor].
  - unfold SuperSwiper.runHandler. rewrite swipeBack_eq.
    destruct (Z.leb_spec (SuperSwiper.currentIndex (SuperSwiper.controller w)) 0);
      cbn [orb]; [destruct w; constructor|].
    destruct (SuperSwiper.swipedCardIndices (SuperSwiper.controller w)) eqn:Hh;
      cbn [length Nat.eqb]; [destruct w; constructor|].
    cbn [fst snd]. apply SuperSwiper.transition_undone; [lia | congruence].
  - unfold SuperSwiper.runHandler. rewrite jumpToCardIndex_eq.
    destruct (Z.ltb_spec index 0); cbn [orb]; [destruct w; constructor|].
    destruct (Z.geb_spec index (SuperSwiper.cards_length props));
      [destruct w; constructor|].
    cbn [fst snd]. apply SuperSwiper.transition_jumped. lia.
  - destruct (SuperSwiper.activeCardRef props (SuperSwiper.controller w)) as [card|] eqn:Hcard;
      [|constructor].
    unfold Card.release.
    destruct (Card.isActive card); [|rewrite react_nothing; constructor].
    destruct (Card.onEnd card event);
      [apply react_trigger; [reflexivity | assumption]
      | rewrite react_nothing; constructor].
  - destruct (SuperSwiper.exiting w) as [direction|] eqn:Hex; [|constructor].
    destruct finished.
    + rewrite animationFinished_eq. cbn [fst snd].
      apply (SuperSwiper.transition_completed props w direction Hex).
    + constructor.
Qed.

(** A property kept by every step holds after every run. *)
Lemma run_invariant (P : SuperSwiper.Widget -> Prop) :
  (forall w ev, P w -> P (fst (SuperSwiper.step props w ev))) ->
  forall evs w, P w -> P (fst (SuperSwiper.run props evs w)).
Proof.
  intros Hstep evs. induction evs as [|ev evs IH]; intros w Hw; [exact Hw|].
  cbn [SuperSwiper.run].
  specialize (Hstep w ev Hw).
  destruct (SuperSwiper.step props w ev) as [w1 log1].
  specialize (IH w1 Hstep).
  destruct (SuperSwiper.run props evs w1) as [w2 log2]. exact IH.
Qed.

Lemma reachable_invariant (P : SuperSwiper.Widget -> Prop) :
  P (SuperSwiper.mountWidget props) ->
  (forall w ev, P w -> P (fst (SuperSwiper.step props w ev))) ->
  forall w, SuperSwiper.reachable props w -> P w.
Proof.
  intros Hmount Hstep w [evs <-]. apply run_invariant; assumption.
Qed.

Lemma reachable_mount : SuperSwiper.reachable props (SuperSwiper.mountWidget props).
Proof. exists []. reflexivity. Qed.

Lemma run_cons_fst (ev : SuperSwiper.Event) (evs : list SuperSwiper.Event)
  (w : SuperSwiper.Widget) :
  fst (SuperSwiper.run props (ev :: evs) w)
  = fst (SuperSwiper.run props evs (fst (SuperSwiper.step props w ev))).
Proof.
  cbn [SuperSwiper.run].
  destruct (SuperSwiper.step props w ev) as [w1 l1]. cbn [fst].
  destruct (SuperSwiper.run props evs w1). reflexivity.
Qed.

Lemma run_snoc_fst (evs : list SuperSwiper.Event) (ev : SuperSwiper.Event)
  (w : SuperSwiper.Widget) :
  fst (SuperSwiper.run props (evs ++ [ev]) w)
  = fst (SuperSwiper.step props (fst (SuperSwiper.run props evs w)) ev).
Proof.
  revert w. induction evs as [|e evs IH]; intros w.
  - cbn [app]. rewrite run_cons_fst. reflexivity.
  - cbn [app]. rewrite !run_cons_fst. apply IH.
Qed.

Lemma run_app_fst (evs1 evs2 : list SuperSwiper.Event) (w : SuperSwiper.Widget) :
  fst (SuperSwiper.run props (evs1 ++ evs2) w)
  = fst (SuperSwiper.run props evs2 (fst (SuperSwiper.run props evs1 w))).
Proof.
  revert w. induction evs1 as [|e evs1 IH]; intros w.
  - reflexivity.
  - cbn [app]. rewrite !run_cons_fst. apply IH.
Qed.

Lemma reachable_step (w : SuperSwiper.Widget) (ev : SuperSwiper.Event) :
  SuperSwiper.reachable props w ->
  SuperSwiper.reachable props (fst (SuperSwiper.step props w ev)).
Proof.
  intros [evs <-]. exists (evs ++ [ev]). apply run_snoc_fst.
Qed.

End Steps.

(** ** Invariants of the widget *)

Section Invariants.

Context {T : Type} (props : SuperSwiper.Props T).

Lemma run_invariant_on (ok : SuperSwiper.Event -> bool) (P : SuperSwiper.Widget -> Prop) :
  (forall w ev, ok ev = true -> P w -> P (fst (SuperSwiper.step props w ev))) ->
  forall evs w, forallb ok evs = true -> P w -> P (fst (SuperSwiper.run props evs w)).
Proof.
  intros Hstep evs. induction evs as [|ev evs IH]; intros w Hok Hw; [exact Hw|].
  cbn [forallb] in Hok. apply andb_true_iff in Hok as [Hev Hevs].
  rewrite run_cons_fst. apply IH; [exact Hevs|]. apply Hstep; assumption.
Qed.

(** No exit animation ever reports the up direction: the card starts one
    for left and right only. *)
Lemma exiting_left_or_right (w : SuperSwiper.Widget) (direction : SwipeDirection) :
  SuperSwiper.reachable props w ->
  SuperSwiper.exiting w = Some direction ->
  direction = Left \/ direction = Right.
Proof.
  intros Hreach. revert direction.
  apply (reachable_invariant props
           (fun w => forall d, SuperSwiper.exiting w = Some d -> d = Left \/ d = Right));
    [ | | exact Hreach].
  - cbn. discriminate.
  - clear w Hreach. intros w ev IH d.
    pose proof (step_transition props w ev) as Ht.
    destruct (SuperSwiper.step props w ev) as [w1 l1]. cbn [fst snd] in *.
    inversion Ht; subst; cbn [SuperSwiper.exiting]; try discriminate; auto.
    intros [= <-]. assumption.
Qed.

Lemma cursorInRange_step (w : SuperSwiper.Widget) (ev : SuperSwiper.Event) :
  cursorInRange props w -> cursorInRange props (fst (SuperSwiper.step props w ev)).
Proof.
  unfold cursorInRange. intros [Hrange Hex].
  pose proof (step_transition props w ev) as Ht.
  destruct (SuperSwiper.step props w ev) as [w1 l1]. cbn [fst snd] in *.
  inversion Ht; subst; cbn; try (split; [lia | intros; lia]).
  - split; assumption.
  - assert (SuperSwiper.currentIndex (SuperSwiper.controller w)
            < SuperSwiper.cards_length props) by (apply Hex; congruence).
    split; [lia | congruence].
  - split; [lia | congruence].
Qed.

End Invariants.

(** ** Commits and undos *)

Lemma consumedIndices_S (first : Z) (n : nat) :
  consumedIndices first (S n) = consumedIndices first n ++ [first + Z.of_nat n].
Proof.
  unfold consumedIndices. rewrite seq_S, map_app. reflexivity.
Qed.

Lemma consumedIndices_length (first : Z) (n : nat) :
  length (consumedIndices first n) = n.
Proof.
  unfold consumedIndices. rewrite length_map, length_seq. reflexivity.
Qed.

Section Commits.

Context {T : Type} (props : SuperSwiper.Props T).

Lemma afterCommits_O : afterCommits props 0 = SuperSwiper.mountWidget props.
Proof.
  unfold afterCommits, SuperSwiper.mountWidget, SuperSwiper.mount.
  cbn. rewrite Z.add_0_r. reflexivity.
Qed.

Lemma completed_afterCommits (n : nat) :
  {| SuperSwiper.controller :=
       SuperSwiper.completedState (SuperSwiper.controller (afterCommits props n));
     SuperSwiper.exiting := None |}
  = afterCommits props (S n).
Proof.
  unfold afterCommits, SuperSwiper.completedState.
  cbn [SuperSwiper.controller SuperSwiper.currentIndex SuperSwiper.swipedCardIndices
       SuperSwiper.forceRenderKey].
  rewrite consumedIndices_S.
  replace (SuperSwiper.initialCardIndex props + Z.of_nat n + 1)
    with (SuperSwiper.initialCardIndex props + Z.of_nat (S n)) by lia.
  reflexivity.
Qed.

(** A programmatic right swipe on a settled widget whose cursor is on a
    card, followed by the completion of the animation, is a commit. *)
Lemma swipeRight_commit (w : SuperSwiper.Widget) :
  SuperSwiper.disableRightSwipe props = false ->
  0 < SuperSwiper.stackSize props ->
  SuperSwiper.isTransitioning (SuperSwiper.controller w) = false ->
  0 <= SuperSwiper.currentIndex (SuperSwiper.controller w)
    < SuperSwiper.cards_length props ->
  SuperSwiper.step props w SuperSwiper.SwipeRight
  = ({| SuperSwiper.controller :=
          SuperSwiper.withTransitioning true (SuperSwiper.controller w);
        SuperSwiper.exiting := Some Right |},
     [OnSwipeStart Right]).
Proof.
  intros Hright Hstack Hlock Hrange.
  cbn [SuperSwiper.step]. unfold SuperSwiper.swipeRight, bind, ret,
    SuperSwiper.get_isTransitioning, SuperSwiper.get_currentIndex.
  rewrite Hright, Hlock. cbn [orb].
  destruct (Z.geb_spec (SuperSwiper.currentIndex (SuperSwiper.controller w))
              (SuperSwiper.cards_length props)); [lia|].
  unfold SuperSwiper.callActiveCard. rewrite activeCardRef_spec.
  destruct (Z.leb_spec 0 (SuperSwiper.currentIndex (SuperSwiper.controller w))); [|lia].
  destruct (Z.ltb_spec (SuperSwiper.currentIndex (SuperSwiper.controller w))
              (SuperSwiper.cards_length props)); [|lia].
  destruct (Z.ltb_spec 0 (SuperSwiper.stackSize props)); [|lia].
  cbn [andb Card.handle]. unfold Card.triggerSwipeRight, Card.triggerFullSwipe.
  cbn [SwipeDirection_eqb andb SuperSwiper.activeCardProps Card.disableRightSwipe].
  rewrite Hright. cbn [negb]. apply react_started.
Qed.

Lemma swipeRightTimes_run (n k : nat) :
  SuperSwiper.disableRightSwipe props = false ->
  0 < SuperSwiper.stackSize props ->
  0 <= SuperSwiper.initialCardIndex props ->
  SuperSwiper.initialCardIndex props + Z.of_nat (k + n)
    <= SuperSwiper.cards_length props ->
  fst (SuperSwiper.run props (swipeRightTimes n) (afterCommits props k))
  = afterCommits props (k + n).
Proof.
  intros Hright Hstack Hinit. revert k.
  induction n as [|n IH]; intros k Hlen.
  - rewrite Nat.add_0_r. reflexivity.
  - cbn [swipeRightTimes]. rewrite !run_cons_fst.
    rewrite swipeRight_commit; try assumption; try reflexivity;
      [|cbn; lia].
    cbn [fst SuperSwiper.step SuperSwiper.exiting SuperSwiper.controller].
    rewrite animationFinished_eq. cbn [fst].
    change (SuperSwiper.completedState
              (SuperSwiper.withTransitioning true
                 (SuperSwiper.controller (afterCommits props k))))
      with (SuperSwiper.completedState (SuperSwiper.controller (afterCommits props k))).
    rewrite completed_afterCommits.
    replace (k + S n)%nat with (S k + n)%nat by lia.
    apply IH. lia.
Qed.

End Commits.

(** ** The later revision *)

Ltac unfold_revised :=
  unfold Revised.handleSwipeStart, Revised.handleSwipeComplete,
    Revised.handleSwipeCancel, Revised.swipeLeft, Revised.swipeRight,
    Revised.swipeUp, Revised.swipeBack, Revised.jumpToCardIndex,
    Revised.get_currentCardIndex, Revised.get_isTransitioning,
    Revised.get_swipedCardIndices, Revised.setCurrentCardIndex,
    Revised.setIsTransitioning, Revised.setSwipedCardIndices, bind, ret, call.

Lemma slice_last_length {A : Type} (n : nat) (l : list A) :
  (n < length l)%nat -> length (slice_last n l) = n.
Proof.
  intros H. unfold slice_last. rewrite length_skipn. lia.
Qed.

Lemma removelast_length_le {A : Type} (l : list A) :
  (length (removelast l) <= length l)%nat.
Proof.
  induction l as [|a [|b l] IH]; cbn [removelast length] in *; lia.
Qed.

(** The history update of the later [handleSwipeComplete]. *)
Lemma Revised_handleSwipeComplete_eq (direction : SwipeDirection) (s : Revised.State) :
  Revised.handleSwipeComplete direction s
  = (tt,
     {| Revised.currentCardIndex := Revised.currentCardIndex s + 1;
        Revised.isTransitioning := false;
        Revised.swipedCardIndices :=
          let updated := Revised.swipedCardIndices s ++ [Revised.currentCardIndex s] in
          if (50 <? length updated)%nat then slice_last 50 updated else updated |},
     [spec_committedNotification direction (Revised.currentCardIndex s);
      OnSwipeEnd (Revised.currentCardIndex s)]).
Proof.
  unfold_revised. destruct direction; reflexivity.
Qed.

Lemma Revised_history_capped_step {T : Type} (props : Revised.Props T)
  (s : Revised.State) (e : Revised.Entry) :
  (length (Revised.swipedCardIndices s) <= 50)%nat ->
  (length (Revised.swipedCardIndices (Revised.enter props s e)) <= 50)%nat.
Proof.
  intros H. destruct e; cbn [Revised.enter].
  - exact H.
  - rewrite Revised_handleSwipeComplete_eq. cbn [fst snd Revised.swipedCardIndices].
    destruct (Nat.ltb_spec 50
                (length (Revised.swipedCardIndices s ++ [Revised.currentCardIndex s])))
      as [Hlt|Hge].
    + rewrite slice_last_length by exact Hlt. lia.
    + exact Hge.
  - exact H.
  - unfold_revised. cbn.
    destruct (negb (Revised.swipeLeftEnabled props) || Revised.isTransitioning s
              || (Revised.currentCardIndex s >=? Revised.cards_length props)); exact H.
  - unfold_revised. cbn.
    destruct (negb (Revised.swipeRightEnabled props) || Revised.isTransitioning s
              || (Revised.currentCardIndex s >=? Revised.cards_length props)); exact H.
  - unfold_revised. cbn.
    destruct (negb (Revised.swipeUpEnabled props) || Revised.isTransitioning s
              || (Revised.currentCardIndex s >=? Revised.cards_length props)); exact H.
  - unfold_revised. cbn.
    destruct ((Revised.currentCardIndex s <=? 0)
              || Nat.eqb (length (Revised.swipedCardIndices s)) 0); cbn; [exact H|].
    unfold slice_0_minus1.
    pose proof (removelast_length_le (Revised.swipedCardIndices s)). lia.
  - unfold_revised.
    destruct ((index <? 0) || (index >=? Revised.cards_length props)); exact H.
Qed.

(** In the later revision the history never holds more than 50 entries. *)
Lemma Revised_history_capped {T : Type} (props : Revised.Props T) (s : Revised.State) :
  Revised.reachable props s -> (length (Revised.swipedCardIndices s) <= 50)%nat.
Proof.
  intros [es <-].
  assert (Hgen : forall es s0, (length (Revised.swipedCardIndices s0) <= 50)%nat ->
            (length (Revised.swipedCardIndices
                       (fold_left (Revised.enter props) es s0)) <= 50)%nat).
  { clear es. induction es as [|e es IH]; intros s0 H0; [exact H0|].
    cbn [fold_left]. apply IH. apply Revised_history_capped_step. exact H0. }
  apply Hgen. cbn. lia.
Qed.

Lemma Revised_complete_history (direction : SwipeDirection) (s : Revised.State) :
  Revised.swipedCardIndices (snd (fst (Revised.handleSwipeComplete direction s)))
  = skipn (length (Revised.swipedCardIndices s) - 49) (Revised.swipedCardIndices s)
    ++ [Revised.currentCardIndex s].
Proof.
  rewrite Revised_handleSwipeComplete_eq. cbn [fst snd Revised.swipedCardIndices].
  rewrite length_app. cbn [length].
  destruct (Nat.ltb_spec 50 (length (Revised.swipedCardIndices s) + 1)) as [Hlt|Hge].
  - unfold slice_last. rewrite length_app. cbn [length].
    rewrite skipn_app.
    replace (length (Revised.swipedCardIndices s) + 1 - 50
             - length (Revised.swipedCardIndices s))%nat with O by lia.
    replace (length (Revised.swipedCardIndices s) + 1 - 50)%nat
      with (length (Revised.swipedCardIndices s) - 49)%nat by lia.
    reflexivity.
  - replace (length (Revised.swipedCardIndices s) - 49)%nat with O by lia.
    reflexivity.
Qed.

(** ** Steps of the component between renders *)

Lemma Live_swipeBack_eq (seen s : SuperSwiper.State) :
  Live.swipeBack seen s
  = if (SuperSwiper.currentIndex s <=? 0)
       || Nat.eqb (length (SuperSwiper.swipedCardIndices seen)) 0
    then (tt, s, [])
    else (tt, SuperSwiper.undoneState s, [OnSwipeBack]).
Proof.
  unfold Live.swipeBack. unfold_handlers. cbn.
  destruct ((SuperSwiper.currentIndex s <=? 0)
            || Nat.eqb (length (SuperSwiper.swipedCardIndices seen)) 0); reflexivity.
Qed.

(** On a state that has just rendered the closures are the handlers of that
    state. *)
Lemma Live_closures_at_render {T : Type} (props : SuperSwiper.Props T)
  (s : SuperSwiper.State) :
  Live.swipeLeft props s s = SuperSwiper.swipeLeft props s /\
  Live.swipeRight props s s = SuperSwiper.swipeRight props s /\
  Live.swipeBack s s = SuperSwiper.swipeBack s.
Proof.
  unfold Live.swipeLeft, Live.swipeRight, Live.swipeBack. unfold_handlers. cbn.
  destruct (SuperSwiper.disableLeftSwipe props), (SuperSwiper.disableRightSwipe props),
    (SuperSwiper.isTransitioning s),
    (SuperSwiper.currentIndex s >=? SuperSwiper.cards_length props),
    ((SuperSwiper.currentIndex s <=? 0)
     || Nat.eqb (length (SuperSwiper.swipedCardIndices s)) 0);
    repeat split.
Qed.

Lemma Live_react_nothing (c : Live.Component) (card : Card.CardProps) :
  Live.react c card Card.nothing = (c, []).
Proof. destruct c; reflexivity. Qed.

Lemma Live_react_started (c : Live.Component) (card : Card.CardProps)
  (direction : SwipeDirection) :
  Live.react c card
    {| Card.calls := [Card.CallSwipeStart direction];
       Card.exitAnimation := Some direction |}
  = ({| Live.current := SuperSwiper.withTransitioning true (Live.current c);
        Live.rendered := Live.rendered c;
        Live.animations :=
          Live.startAnimation (Card.index card) direction (Live.animations c) |},
     [OnSwipeStart direction]).
Proof. reflexivity. Qed.

Section LiveSteps.

Context {T : Type} (props : SuperSwiper.Props T).

Lemma Live_trigger_cases (c : Live.Component) (card : Card.CardProps)
  (direction : SwipeDirection) :
  SuperSwiper.activeCardRef props (Live.rendered c) = Some card ->
  Live.react c card (Card.triggerFullSwipe card direction) = (c, []) \/
  (direction = Left \/ direction = Right) /\
  0 <= SuperSwiper.currentIndex (Live.rendered c) < SuperSwiper.cards_length props /\
  Live.react c card (Card.triggerFullSwipe card direction)
  = (startedFrom c direction, [OnSwipeStart direction]).
Proof.
  intros Hcard. apply activeCardRef_Some in Hcard as [Hrange ->].
  destruct (triggerFullSwipe_cases
              (SuperSwiper.activeCardProps props
                 (SuperSwiper.currentIndex (Live.rendered c))) direction)
    as [-> | (Hd & _ & ->)].
  - left. apply Live_react_nothing.
  - right. split; [exact Hd | split; [exact Hrange|]]. reflexivity.
Qed.

Lemma Live_callActiveCard_cases (c : Live.Component) (m : CardMethod) :
  Live.callActiveCard props c m = (c, []) \/
  exists direction,
    (direction = Left \/ direction = Right) /\
    0 <= SuperSwiper.currentIndex (Live.rendered c) < SuperSwiper.cards_length props /\
    Live.callActiveCard props c m = (startedFrom c direction, [OnSwipeStart direction]).
Proof.
  unfold Live.callActiveCard.
  destruct (SuperSwiper.activeCardRef props (Live.rendered c)) as [card|] eqn:Hcard;
    [|left; reflexivity].
  destruct m; cbn [Card.handle]; [ | | left; reflexivity];
    unfold Card.triggerSwipeLeft, Card.triggerSwipeRight.
  - destruct (Live_trigger_cases c card Left Hcard) as [-> | (Hd & Hr & ->)];
      [left; reflexivity | right; exists Left; auto].
  - destruct (Live_trigger_cases c card Right Hcard) as [-> | (Hd & Hr & ->)];
      [left; reflexivity | right; exists Right; auto].
Qed.

(** A request either changes nothing or starts an exit animation on the
    card of the rendered cursor. *)
Lemma Live_request_cases (c : Live.Component) (ev : Live.Event) :
  Live.isCommitRequest ev = true ->
  Live.step props c ev = (c, []) \/
  exists direction,
    (direction = Left \/ direction = Right) /\
    0 <= SuperSwiper.currentIndex (Live.rendered c) < SuperSwiper.cards_length props /\
    Live.step props c ev = (startedFrom c direction, [OnSwipeStart direction]).
Proof.
  destruct ev as [ | | | index | event | card finished | ]; try discriminate; intros _;
    cbn [Live.step].
  - destruct (Live.swipeLeft props (Live.rendered c) (Live.current c)) as [[[m|] ?] ?];
      [apply Live_callActiveCard_cases | left; reflexivity].
  - destruct (Live.swipeRight props (Live.rendered c) (Live.current c)) as [[[m|] ?] ?];
      [apply Live_callActiveCard_cases | left; reflexivity].
  - destruct (SuperSwiper.activeCardRef props (Live.rendered c)) as [card|] eqn:Hcard;
      [|left; reflexivity].
    unfold Card.release.
    destruct (Card.isActive card); [|left; apply Live_react_nothing].
    destruct (Card.onEnd card event) as [d|]; [|left; apply Live_react_nothing].
    destruct (Live_trigger_cases c card d Hcard) as [-> | (Hd & Hr & ->)];
      [left; reflexivity | right; exists d; auto].
Qed.

Lemma Live_swipeBack_step (c : Live.Component) :
  Live.step props c Live.SwipeBack
  = if (SuperSwiper.currentIndex (Live.current c) <=? 0)
       || Nat.eqb (length (SuperSwiper.swipedCardIndices (Live.rendered c))) 0
    then (c, [])
    else ({| Live.current := SuperSwiper.undoneState (Live.current c);
             Live.rendered := Live.rendered c;
             Live.animations := Live.animations c |}, [OnSwipeBack]).
Proof.
  cbn [Live.step]. unfold Live.runHandler. rewrite Live_swipeBack_eq.
  destruct ((SuperSwiper.currentIndex (Live.current c) <=? 0)
            || Nat.eqb (length (SuperSwiper.swipedCardIndices (Live.rendered c))) 0);
    [destruct c|]; reflexivity.
Qed.

(** Every step changes the current state in one of the listed ways. *)
Lemma Live_step_change (c : Live.Component) (ev : Live.Event) :
  Live.change props c ev
    (Live.current (fst (Live.step props c ev))) (snd (Live.step props c ev)).
Proof.
  destruct (Live.isCommitRequest ev) eqn:Hreq.
  - destruct (Live_request_cases c ev Hreq) as [-> | (d & _ & _ & ->)].
    + (cbn; apply Live.change_none).
    + cbn [fst snd startedFrom Live.current].
      apply Live.change_started. exact Hreq.
  - destruct ev as [ | | | index | event | card finished | ]; try discriminate.
    + rewrite Live_swipeBack_step.
      destruct (Z.leb_spec (SuperSwiper.currentIndex (Live.current c)) 0);
        cbn [orb]; [(cbn; apply Live.change_none)|].
      destruct (Nat.eqb _ 0); [(cbn; apply Live.change_none)|].
      cbn [fst snd Live.current]. apply Live.change_undone. lia.
    + cbn [Live.step]. unfold Live.runHandler. rewrite jumpToCardIndex_eq.
      destruct (Z.ltb_spec index 0); cbn [orb]; [(cbn; apply Live.change_none)|].
      destruct (Z.geb_spec index (SuperSwiper.cards_length props));
        [(cbn; apply Live.change_none)|].
      cbn [fst snd Live.current]. apply Live.change_jumped. lia.
    + cbn [Live.step].
      destruct (Live.runningOn card (Live.animations c)) as [d|];
        [|(cbn; apply Live.change_none)].
      destruct finished; [|(cbn; apply Live.change_none)].
      rewrite animationFinished_eq. cbn [fst snd Live.current].
      apply (Live.change_completed props c card d).
    + (cbn; apply Live.change_none).
Qed.

Lemma Live_run_cons_fst (ev : Live.Event) (evs : list Live.Event) (c : Live.Component) :
  fst (Live.run props (ev :: evs) c)
  = fst (Live.run props evs (fst (Live.step props c ev))).
Proof.
  cbn [Live.run].
  destruct (Live.step props c ev) as [c1 l1]. cbn [fst].
  destruct (Live.run props evs c1). reflexivity.
Qed.

Lemma Live_run_app_fst (evs1 evs2 : list Live.Event) (c : Live.Component) :
  fst (Live.run props (evs1 ++ evs2) c)
  = fst (Live.run props evs2 (fst (Live.run props evs1 c))).
Proof.
  revert c. induction evs1 as [|e evs1 IH]; intros c; [reflexivity|].
  cbn [app]. rewrite !Live_run_cons_fst. apply IH.
Qed.

(** A step keeps the history within the cursor unless it is a jump below
    the length of the history. *)
Lemma historyWithinCursor_step (c : Live.Component) (ev : Live.Event) :
  historyWithinCursor (Live.current c) ->
  match ev with
  | Live.JumpToCardIndex index =>
      Z.of_nat (length (SuperSwiper.swipedCardIndices (Live.current c))) <=? index
  | _ => true
  end = true ->
  historyWithinCursor (Live.current (fst (Live.step props c ev))).
Proof.
  unfold historyWithinCursor. intros [Hpos Hlen] Hjump.
  pose proof (Live_step_change c ev) as Hch.
  destruct (Live.step props c ev) as [c1 l1]. cbn [fst snd] in *.
  inversion Hch; subst; cbn; try (split; lia).
  - rewrite length_app. cbn [length]. split; lia.
  - pose proof (removelast_length_le
                  (SuperSwiper.swipedCardIndices (Live.current c))) as Hrl.
    destruct (SuperSwiper.swipedCardIndices (Live.current c)) as [|x h] eqn:Hh.
    + cbn. split; lia.
    + assert (Hlt : (length (removelast (x :: h)) < length (x :: h))%nat).
      { destruct (exists_last (l := x :: h)) as (h' & y & Hlast); [discriminate|].
        rewrite Hlast, removelast_last, length_app. cbn [length]. lia. }
      split; lia.
Qed.

Lemma historyWithinCursor_run (evs : list Live.Event) (c : Live.Component) :
  historyWithinCursor (Live.current c) ->
  jumpsClearHistory props evs c = true ->
  historyWithinCursor (Live.current (fst (Live.run props evs c))).
Proof.
  revert c. induction evs as [|ev evs IH]; intros c Hc Hj; [exact Hc|].
  cbn [jumpsClearHistory] in Hj. apply andb_true_iff in Hj as [Hev Hrest].
  rewrite Live_run_cons_fst. apply IH; [|exact Hrest].
  apply historyWithinCursor_step; assumption.
Qed.

End LiveSteps.

(** ** Commits and undos between renders *)



Section LiveCommits.

Context {T : Type} (props : SuperSwiper.Props T).







End LiveCommits.

(** * The claims *)

(** ** C1: what the completion of a commit does *)

(** C1.  For every successful commit, gesture-driven or programmatic (an
    exit animation in flight on a reachable widget, whose callback runs with
    [finished = true]), the completion handler appends the pre-commit cursor
    to the history, adds exactly 1 to the cursor, clears the transition flag,
    and calls the direction-specific callback and then [onSwipeEnd], both
    with the pre-increment cursor. *)
Theorem C1_commit_completion {T : Type} (props : SuperSwiper.Props T)
  (w : SuperSwiper.Widget) (direction : SwipeDirection) :
  SuperSwiper.reachable props w ->
  SuperSwiper.exiting w = Some direction ->
  SuperSwiper.step props w (SuperSwiper.AnimationCallback true)
  = ({| SuperSwiper.controller :=
          {| SuperSwiper.currentIndex :=
               SuperSwiper.currentIndex (SuperSwiper.controller w) + 1;
             SuperSwiper.isTransitioning := false;
             SuperSwiper.swipedCardIndices :=
               SuperSwiper.swipedCardIndices (SuperSwiper.controller w)
               ++ [SuperSwiper.currentIndex (SuperSwiper.controller w)];
             SuperSwiper.forceRenderKey :=
               SuperSwiper.forceRenderKey (SuperSwiper.controller w) |};
        SuperSwiper.exiting := None |},
     [spec_committedNotification direction
        (SuperSwiper.currentIndex (SuperSwiper.controller w));
      OnSwipeEnd (SuperSwiper.currentIndex (SuperSwiper.controller w))]).
Proof.
  intros Hreach Hex.
  destruct (exiting_left_or_right props w direction Hreach Hex) as [-> | ->];
    cbn [SuperSwiper.step]; rewrite Hex, animationFinished_eq; reflexivity.
Qed.

Lemma C1_commit_completion_witness :
  let w := fst (SuperSwiper.run fiveCards [SuperSwiper.SwipeRight]
                  (SuperSwiper.mountWidget fiveCards)) in
  SuperSwiper.reachable fiveCards w /\
  SuperSwiper.exiting w = Some Right /\
  SuperSwiper.step fiveCards w (SuperSwiper.AnimationCallback true)
  = ({| SuperSwiper.controller :=
          {| SuperSwiper.currentIndex := 1;
             SuperSwiper.isTransitioning := false;
             SuperSwiper.swipedCardIndices := [0];
             SuperSwiper.forceRenderKey := 0 |};
        SuperSwiper.exiting := None |},
     [OnSwipedRight 0; OnSwipeEnd 0]).
Proof.
  intros w.
  assert (Hreach : SuperSwiper.reachable fiveCards w)
    by (exists [SuperSwiper.SwipeRight]; reflexivity).
  assert (Hex : SuperSwiper.exiting w = Some Right) by reflexivity.
  split; [exact Hreach | split; [exact Hex|]].
  exact (C1_commit_completion fiveCards w Right Hreach Hex).
Defined.

(** ** C2: history length against the cursor *)

(** C2, as stated, fails: after one commit and a jump back to the first
    card the history has one entry and the cursor is 0. *)
Lemma C2_jump_counterexample :
  let w := fst (SuperSwiper.run fiveCards
                  [SuperSwiper.SwipeRight; SuperSwiper.AnimationCallback true;
                   SuperSwiper.JumpToCardIndex 0]
                  (SuperSwiper.mountWidget fiveCards)) in
  SuperSwiper.reachable fiveCards w /\
  SuperSwiper.swipedCardIndices (SuperSwiper.controller w) = [0] /\
  SuperSwiper.currentIndex (SuperSwiper.controller w) = 0 /\
  ~ (Z.of_nat (length (SuperSwiper.swipedCardIndices (SuperSwiper.controller w)))
     <= SuperSwiper.currentIndex (SuperSwiper.controller w)).
Proof.
  intros w. split; [eexists; reflexivity|].
  split; [reflexivity|]. split; [reflexivity|].
  cbn. lia.
Qed.

(** C2, amended.  Started at a non-negative index, in every state reached
    by commits, cancelled releases, [swipeBack] and those [jumpToCardIndex]
    calls whose index is at least the length the history has when they are
    made, in any order and with renders anywhere between them, the history
    (with every queued update applied) is no longer than the cursor. *)
Theorem C2_history_within_cursor {T : Type} (props : SuperSwiper.Props T)
  (evs : list Live.Event) :
  0 <= SuperSwiper.initialCardIndex props ->
  jumpsClearHistory props evs (Live.mount props) = true ->
  Z.of_nat (length (SuperSwiper.swipedCardIndices
                      (Live.current (fst (Live.run props evs (Live.mount props))))))
  <= SuperSwiper.currentIndex
       (Live.current (fst (Live.run props evs (Live.mount props)))).
Proof.
  intros Hinit Hjumps.
  apply (historyWithinCursor_run props evs (Live.mount props)); [|exact Hjumps].
  unfold historyWithinCursor. cbn. lia.
Qed.

Lemma C2_history_within_cursor_witness :
  let evs := [Live.SwipeRight; Live.AnimationCallback 0 true; Live.Render;
              Live.SwipeLeft; Live.AnimationCallback 1 true;
              Live.JumpToCardIndex 4; Live.SwipeBack; Live.SwipeBack;
              Live.Render; Live.JumpToCardIndex 0] in
  SuperSwiper.swipedCardIndices
    (Live.current (fst (Live.run fiveCards evs (Live.mount fiveCards)))) = [] /\
  Z.of_nat (length (SuperSwiper.swipedCardIndices
                      (Live.current (fst (Live.run fiveCards evs (Live.mount fiveCards))))))
  <= SuperSwiper.currentIndex
       (Live.current (fst (Live.run fiveCards evs (Live.mount fiveCards)))).
Proof.
  intros evs. split; [reflexivity|].
  apply (C2_history_within_cursor fiveCards evs).
  - cbn. lia.
  - reflexivity.
Defined.

(** ** C3: undo is the inverse of commit *)




(** ** C4: the transition flag blocks programmatic swipes only *)




(** ** C5: the retention cap of the history *)

(** C5, as stated, fails on the controller of part_000: no constant bounds
    its history.  On [K + 1] cards, [K + 1] programmatic right swipes, each
    run to completion, leave [K + 1] entries. *)
Lemma C5_no_cap_counterexample :
  ~ (exists K : nat,
       forall (props : SuperSwiper.Props nat) (w : SuperSwiper.Widget),
         SuperSwiper.reachable props w ->
         (length (SuperSwiper.swipedCardIndices (SuperSwiper.controller w)) <= K)%nat).
Proof.
  intros [K HK].
  set (props := SuperSwiper.defaultProps 400 (repeat 0%nat (S K))).
  set (w := fst (SuperSwiper.run props (swipeRightTimes (S K))
                   (SuperSwiper.mountWidget props))).
  assert (Hw : w = afterCommits props (S K)).
  { subst w. rewrite <- afterCommits_O.
    rewrite (swipeRightTimes_run props (S K) 0); try reflexivity.
    unfold props, SuperSwiper.cards_length.
    cbn [SuperSwiper.defaultProps SuperSwiper.initialCardIndex SuperSwiper.cards].
    rewrite repeat_length. lia. }
  assert (Hreach : SuperSwiper.reachable props w)
    by (exists (swipeRightTimes (S K)); reflexivity).
  specialize (HK props w Hreach). rewrite Hw in HK.
  cbn [afterCommits SuperSwiper.controller SuperSwiper.swipedCardIndices] in HK.
  rewrite consumedIndices_length in HK. lia.
Qed.

(** C5, amended.  The retention cap belongs to the later revision of the
    controller: there, with [K = 50], every reachable history has at most 50
    entries, and a completion keeps the newest ones (the old history without
    its oldest entries beyond 49, followed by the consumed index).  In the
    controller of part_000 a completion appends the consumed index and
    discards nothing. *)
Theorem C5_history_cap_by_revision {T : Type} (props : Revised.Props T)
  (s : Revised.State) (direction : SwipeDirection) (old : SuperSwiper.State) :
  Revised.reachable props s ->
  (length (Revised.swipedCardIndices s) <= 50)%nat /\
  Revised.swipedCardIndices (snd (fst (Revised.handleSwipeComplete direction s)))
  = skipn (length (Revised.swipedCardIndices s) - 49) (Revised.swipedCardIndices s)
    ++ [Revised.currentCardIndex s] /\
  SuperSwiper.swipedCardIndices
    (snd (fst (SuperSwiper.handleSwipeComplete direction old)))
  = SuperSwiper.swipedCardIndices old ++ [SuperSwiper.currentIndex old].
Proof.
  intros Hreach. split; [exact (Revised_history_capped props s Hreach)|].
  split; [apply Revised_complete_history|].
  rewrite handleSwipeComplete_eq. reflexivity.
Qed.

Lemma C5_history_cap_by_revision_witness :
  let s := fold_left (Revised.enter fiveCardsRevised)
             (repeat (Revised.HandleSwipeComplete Right) 52) Revised.mount in
  Revised.reachable fiveCardsRevised s /\
  length (Revised.swipedCardIndices s) = 50%nat /\
  (length (Revised.swipedCardIndices s) <= 50)%nat /\
  hd 0 (Revised.swipedCardIndices s) = 2.
Proof.
  intros s.
  assert (Hreach : Revised.reachable fiveCardsRevised s)
    by (exists (repeat (Revised.HandleSwipeComplete Right) 52); reflexivity).
  split; [exact Hreach|]. split; [reflexivity|].
  split; [|reflexivity].
  exact (proj1 (C5_history_cap_by_revision fiveCardsRevised s Right
                  (SuperSwiper.mount fiveCards) Hreach)).
Defined.

(** ** C6: the up direction *)

Lemma run_cons_snd {T : Type} (props : SuperSwiper.Props T) (ev : SuperSwiper.Event)
  (evs : list SuperSwiper.Event) (w : SuperSwiper.Widget) :
  snd (SuperSwiper.run props (ev :: evs) w)
  = snd (SuperSwiper.step props w ev)
    ++ snd (SuperSwiper.run props evs (fst (SuperSwiper.step props w ev))).
Proof.
  cbn [SuperSwiper.run].
  destruct (SuperSwiper.step props w ev) as [w1 l1]. cbn [fst snd].
  destruct (SuperSwiper.run props evs w1). reflexivity.
Qed.

(** The widget of part_000 never calls [onSwipedUp] and never reports a
    swipe in the up direction. *)
Lemma run_never_notifies_up {T : Type} (props : SuperSwiper.Props T)
  (evs : list SuperSwiper.Event) (w : SuperSwiper.Widget) (n : Notification) :
  In n (snd (SuperSwiper.run props evs w)) ->
  (forall cardIndex, n <> OnSwipedUp cardIndex) /\ n <> OnSwipeStart Up.
Proof.
  revert w. induction evs as [|ev evs IH]; intros w; [intros []|].
  rewrite run_cons_snd, in_app_iff. intros [Hin | Hin]; [|exact (IH _ Hin)].
  pose proof (step_transition props w ev) as Ht.
  destruct (SuperSwiper.step props w ev) as [w1 l1]. cbn [fst snd] in *.
  inversion Ht; subst; cbn [In] in Hin.
  - destruct Hin.
  - destruct Hin as [<- | []]. split; [discriminate|].
    match goal with
    | Hd : _ = Left \/ _ = Right |- _ => destruct Hd as [-> | ->]; discriminate
    end.
  - destruct Hin as [<- | [<- | []]]; [|split; discriminate].
    destruct (SwipeDirection_eqb direction Left); split; discriminate.
  - destruct Hin.
  - destruct Hin as [<- | []]. split; discriminate.
  - destruct Hin.
Qed.

(** C6, as stated, fails on the controller of part_000: the handle it
    builds has no [swipeUp], and the handle of its card has no
    [triggerSwipeUp]. *)
Lemma C6_no_swipeUp_counterexample :
  SuperSwiper.imperativeHandle
  = [swipeLeft_method; swipeRight_method; swipeBack_method; jumpToCardIndex_method] /\
  SuperSwiper.exposes swipeUp_method = false /\
  Card.handle topCard triggerSwipeUp_method = None.
Proof. repeat split. Qed.

(** C6, amended.  The up direction belongs to the later revision of the
    controller: its handle has [swipeUp], which forwards the up trigger to
    the active card exactly under the guard of [swipeLeft] and [swipeRight]
    with its own flag (direction enabled, flag clear, cursor before the end
    of the cards) and changes no state itself, and its completion handler,
    for the up direction, calls [onSwipedUp] and then [onSwipeEnd], both with
    the consumed index.  In the controller of part_000 no sequence of events
    makes the widget call [onSwipedUp]. *)
Theorem C6_swipeUp_by_revision {T : Type} (rprops : Revised.Props T)
  (s : Revised.State) (props : SuperSwiper.Props T)
  (evs : list SuperSwiper.Event) (w : SuperSwiper.Widget) (cardIndex : Z) :
  Revised.exposes swipeUp_method = true /\
  Revised.swipeUp rprops s
  = (if negb (Revised.swipeUpEnabled rprops) || Revised.isTransitioning s
        || (Revised.currentCardIndex s >=? Revised.cards_length rprops)
     then None else Some triggerSwipeUp_method, s, []) /\
  Revised.swipeLeft rprops s
  = (if negb (Revised.swipeLeftEnabled rprops) || Revised.isTransitioning s
        || (Revised.currentCardIndex s >=? Revised.cards_length rprops)
     then None else Some triggerSwipeLeft_method, s, []) /\
  Revised.swipeRight rprops s
  = (if negb (Revised.swipeRightEnabled rprops) || Revised.isTransitioning s
        || (Revised.currentCardIndex s >=? Revised.cards_length rprops)
     then None else Some triggerSwipeRight_method, s, []) /\
  snd (Revised.handleSwipeComplete Up s)
  = [OnSwipedUp (Revised.currentCardIndex s); OnSwipeEnd (Revised.currentCardIndex s)] /\
  ~ In (OnSwipedUp cardIndex) (snd (SuperSwiper.run props evs w)).
Proof.
  split; [reflexivity|].
  split; [|split; [|split; [|split]]].
  - unfold_revised. cbn.
    destruct (negb (Revised.swipeUpEnabled rprops) || Revised.isTransitioning s
              || (Revised.currentCardIndex s >=? Revised.cards_length rprops));
      reflexivity.
  - unfold_revised. cbn.
    destruct (negb (Revised.swipeLeftEnabled rprops) || Revised.isTransitioning s
              || (Revised.currentCardIndex s >=? Revised.cards_length rprops));
      reflexivity.
  - unfold_revised. cbn.
    destruct (negb (Revised.swipeRightEnabled rprops) || Revised.isTransitioning s
              || (Revised.currentCardIndex s >=? Revised.cards_length rprops));
      reflexivity.
  - rewrite Revised_handleSwipeComplete_eq. reflexivity.
  - intros Hin.
    destruct (run_never_notifies_up props evs w _ Hin) as [Hup _].
    exact (Hup cardIndex eq_refl).
Qed.

Lemma C6_swipeUp_by_revision_witness :
  Revised.swipeUp fiveCardsRevised Revised.mount
  = (Some triggerSwipeUp_method, Revised.mount, []) /\
  snd (Revised.handleSwipeComplete Up
         (fold_left (Revised.enter fiveCardsRevised)
            [Revised.HandleSwipeStart Up] Revised.mount))
  = [OnSwipedUp 0; OnSwipeEnd 0] /\
  ~ In (OnSwipedUp 0)
      (snd (SuperSwiper.run fiveCards
              [SuperSwiper.SwipeRight; SuperSwiper.AnimationCallback true]
              (SuperSwiper.mountWidget fiveCards))).
Proof.
  split; [reflexivity|]. split; [reflexivity|].
  exact (proj2 (proj2 (proj2 (proj2 (proj2
           (C6_swipeUp_by_revision fiveCardsRevised Revised.mount fiveCards
              [SuperSwiper.SwipeRight; SuperSwiper.AnimationCallback true]
              (SuperSwiper.mountWidget fiveCards) 0)))))).
Defined.

(** ** C7: the cancel path *)

Lemma release_without_commit (p : Card.CardProps) (event : Card.PanEvent) :
  Card.commits p event = None -> Card.release p event = Card.nothing.
Proof.
  unfold Card.commits, Card.release. intros H.
  destruct (Card.isActive p); [|reflexivity].
  destruct (Card.onEnd p event) as [direction|]; [|reflexivity].
  destruct (triggerFullSwipe_cases p direction) as [-> | (_ & _ & Heq)];
    [reflexivity|].
  rewrite Heq in H. discriminate.
Qed.

Lemma release_never_cancels (p : Card.CardProps) (event : Card.PanEvent) :
  ~ In Card.CallSwipeCancel (Card.calls (Card.release p event)).
Proof.
  unfold Card.release.
  destruct (Card.isActive p); [|intros []].
  destruct (Card.onEnd p event) as [direction|]; [|intros []].
  destruct (triggerFullSwipe_cases p direction) as [-> | (_ & _ & ->)].
  - intros [].
  - intros [H | []]. discriminate.
Qed.

(** C7.  A release that fails the commit test makes the card call nothing
    on its parent: no release ever calls [onSwipeCancel], and such a release
    leaves the whole widget, transition flag included, as it was (shown on a
    release at 50 against a threshold of 100 while a programmatic swipe is in
    flight).  The controller's [handleSwipeCancel], were it called, clears
    the transition flag and nothing else. *)
Theorem C7_cancelled_release_calls_nothing :
  (forall p event,
     Card.commits p event = None -> Card.release p event = Card.nothing) /\
  (forall p event,
     ~ In Card.CallSwipeCancel (Card.calls (Card.release p event))) /\
  (let event := {| Card.translationX := 50; Card.translationY := 0 |} in
   let w := fst (SuperSwiper.run fiveCards [SuperSwiper.SwipeRight]
                   (SuperSwiper.mountWidget fiveCards)) in
   Card.onEnd topCard event = Card.SpringBack 0 0 1 /\
   Card.calls (Card.release topCard event) = [] /\
   SuperSwiper.isTransitioning (SuperSwiper.controller w) = true /\
   SuperSwiper.step fiveCards w (SuperSwiper.PanEnd event) = (w, [])) /\
  (forall s,
     SuperSwiper.handleSwipeCancel s
     = (tt,
        {| SuperSwiper.currentIndex := SuperSwiper.currentIndex s;
           SuperSwiper.isTransitioning := false;
           SuperSwiper.swipedCardIndices := SuperSwiper.swipedCardIndices s;
           SuperSwiper.forceRenderKey := SuperSwiper.forceRenderKey s |},
        [])).
Proof.
  split; [exact release_without_commit|].
  split; [exact release_never_cancels|].
  split; [|intros s; reflexivity].
  repeat split.
Qed.

(** ** C8: the cursor stays within the cards *)

(** C8, as stated, fails at mount when [initialCardIndex] is out of range:
    the prop is taken as it comes. *)
Lemma C8_initial_index_counterexample :
  SuperSwiper.reachable fiveCardsFromSeven (SuperSwiper.mountWidget fiveCardsFromSeven) /\
  SuperSwiper.currentIndex
    (SuperSwiper.controller (SuperSwiper.mountWidget fiveCardsFromSeven)) = 7 /\
  SuperSwiper.cards_length fiveCardsFromSeven = 5 /\
  ~ (0 <= SuperSwiper.currentIndex
            (SuperSwiper.controller (SuperSwiper.mountWidget fiveCardsFromSeven))
       <= SuperSwiper.cards_length fiveCardsFromSeven).
Proof.
  split; [apply reachable_mount|].
  split; [reflexivity|]. split; [reflexivity|].
  cbn. lia.
Qed.

(** C8, amended.  When [initialCardIndex] lies between 0 and the number of
    cards, the cursor lies between 0 and the number of cards in every
    reachable state; and with the cursor on the number of cards, [swipeRight]
    changes nothing and notifies nobody. *)
Theorem C8_cursor_in_range {T : Type} (props : SuperSwiper.Props T)
  (w : SuperSwiper.Widget) :
  0 <= SuperSwiper.initialCardIndex props <= SuperSwiper.cards_length props ->
  SuperSwiper.reachable props w ->
  0 <= SuperSwiper.currentIndex (SuperSwiper.controller w)
    <= SuperSwiper.cards_length props /\
  (SuperSwiper.currentIndex (SuperSwiper.controller w) = SuperSwiper.cards_length props ->
   SuperSwiper.step props w SuperSwiper.SwipeRight = (w, [])).
Proof.
  intros Hinit Hreach. split.
  - apply (reachable_invariant props (cursorInRange props)) in Hreach.
    + exact (proj1 Hreach).
    + unfold cursorInRange. cbn. split; [exact Hinit | congruence].
    + intros w0 ev. apply cursorInRange_step.
  - intros Hend. cbn [SuperSwiper.step]. unfold_handlers. cbn.
    rewrite Hend, Z.geb_leb, Z.leb_refl, !orb_true_r. reflexivity.
Qed.

Lemma C8_cursor_in_range_witness :
  let props := SuperSwiper.defaultProps 400 [1; 2]%nat in
  let w := fst (SuperSwiper.run props (swipeRightTimes 2) (SuperSwiper.mountWidget props)) in
  SuperSwiper.currentIndex (SuperSwiper.controller w) = 2 /\
  0 <= SuperSwiper.currentIndex (SuperSwiper.controller w)
    <= SuperSwiper.cards_length props /\
  SuperSwiper.step props w SuperSwiper.SwipeRight = (w, []).
Proof.
  intros props w.
  assert (Hinit : 0 <= SuperSwiper.initialCardIndex props
                    <= SuperSwiper.cards_length props) by (cbn; lia).
  assert (Hreach : SuperSwiper.reachable props w)
    by (exists (swipeRightTimes 2); reflexivity).
  destruct (C8_cursor_in_range props w Hinit Hreach) as [Hrange Hnoop].
  split; [reflexivity|]. split; [exact Hrange|].
  apply Hnoop. reflexivity.
Defined.

(** ** C9: the threshold test at release *)

(** C9.  The release handler commits in a direction exactly when the
    absolute horizontal displacement is strictly greater than
    [swipeThreshold] and the direction is the one the sign of the
    displacement implies (right when positive, left otherwise) and is not
    disabled.  With a threshold of 100, a release at +100 does not commit, at
    +100.01 it commits right (when right is enabled) and at -100.01 it commits
    left (when left is enabled), whatever the vertical displacement [y]. *)
Theorem C9_release_commits_iff (p : Card.CardProps) (event : Card.PanEvent)
  (direction : SwipeDirection) (y : Q) :
  (Card.commits p event = Some direction <->
   (Card.swipeThreshold p < Qabs (Card.translationX event))%Q /\
   ((0 < Card.translationX event)%Q /\ direction = Right
      /\ Card.disableRightSwipe p = false
    \/ ~ (0 < Card.translationX event)%Q /\ direction = Left
      /\ Card.disableLeftSwipe p = false)) /\
  (Card.swipeThreshold p = 100%Q ->
   Card.commits p {| Card.translationX := 100; Card.translationY := y |} = None /\
   Card.commits p {| Card.translationX := 100.01; Card.translationY := y |}
   = (if Card.disableRightSwipe p then None else Some Right) /\
   Card.commits p {| Card.translationX := -100.01; Card.translationY := y |}
   = (if Card.disableLeftSwipe p then None else Some Left)).
Proof.
  split.
  - unfold Card.commits, Card.onEnd, Card.triggerFullSwipe.
    pose proof (Qgt_bool_iff (Qabs (Card.translationX event)) (Card.swipeThreshold p)) as Ha.
    pose proof (Qgt_bool_iff (Card.translationX event) 0) as Hb.
    destruct (Qgt_bool (Qabs (Card.translationX event)) (Card.swipeThreshold p));
      destruct (Qgt_bool (Card.translationX event) 0);
      destruct (Card.disableLeftSwipe p); destruct (Card.disableRightSwipe p);
      cbn; split;
      try (intros [= <-]); try discriminate;
      try (intros [Habs [(Hpos & -> & Hflag) | (Hneg & -> & Hflag)]]);
      try reflexivity; try discriminate;
      try (apply Ha in Habs; discriminate);
      try (exfalso; apply Hneg; apply Hb; reflexivity);
      try (apply Hb in Hpos; discriminate).
    all: split; [apply Ha; reflexivity|].
    all: try (left; split; [apply Hb; reflexivity | split; reflexivity]).
    all: right; split; [intros Hpos; apply Hb in Hpos; discriminate | split; reflexivity].
  - intros Hthr. destruct p as [i sp z a thr dl dr]. cbn in Hthr. subst thr.
    unfold Card.commits, Card.onEnd, Card.triggerFullSwipe. cbn.
    destruct dl, dr; repeat split.
Qed.

Lemma C9_release_commits_iff_witness :
  Card.swipeThreshold topCard == 100 /\
  (Card.commits topCard {| Card.translationX := 100.01; Card.translationY := 3 |}
   = Some Right <->
   (Card.swipeThreshold topCard < Qabs 100.01)%Q /\
   ((0 < 100.01)%Q /\ Right = Right /\ Card.disableRightSwipe topCard = false
    \/ ~ (0 < 100.01)%Q /\ Right = Left /\ Card.disableLeftSwipe topCard = false)) /\
  Card.commits
    {| Card.index := 0; Card.stackPosition := 0; Card.zIndex := 5;
       Card.isActive := true; Card.swipeThreshold := 100;
       Card.disableLeftSwipe := false; Card.disableRightSwipe := false |}
    {| Card.translationX := 100; Card.translationY := 3 |} = None.
Proof.
  split; [reflexivity|]. split.
  - exact (proj1 (C9_release_commits_iff topCard
                    {| Card.translationX := 100.01; Card.translationY := 3 |}
                    Right 3)).
  - exact (proj1 (proj2 (C9_release_commits_iff
                    {| Card.index := 0; Card.stackPosition := 0; Card.zIndex := 5;
                       Card.isActive := true; Card.swipeThreshold := 100;
                       Card.disableLeftSwipe := false; Card.disableRightSwipe := false |}
                    {| Card.translationX := 0; Card.translationY := 0 |}
                    Left 3) eq_refl)).
Defined.

(** ** C10: the decision does not read the vertical displacement *)

(** C10, as stated, fails in its last clause: against a negative threshold
    a release with no horizontal displacement at all passes the threshold
    test, so a purely vertical drag ends in a commit to the left. *)
Lemma C10_vertical_drag_counterexample :
  Card.commits negativeThresholdCard
    {| Card.translationX := 0; Card.translationY := 300 |} = Some Left /\
  Card.exitAnimation
    (Card.release negativeThresholdCard
       {| Card.translationX := 0; Card.translationY := 300 |}) = Some Left.
Proof. split; reflexivity. Qed.

(** C10, amended.  Two releases with equal horizontal displacement get the
    same outcome from the release handler, the same commit decision and
    direction, and the same reaction of the card, whatever their vertical
    displacements; and when [swipeThreshold] is not negative, a release with
    no horizontal displacement does not commit, however far the drag went
    vertically. *)
Theorem C10_decision_ignores_vertical (p : Card.CardProps) (e1 e2 : Card.PanEvent) :
  (Card.translationX e1 == Card.translationX e2)%Q ->
  Card.onEnd p e1 = Card.onEnd p e2 /\
  Card.commits p e1 = Card.commits p e2 /\
  Card.release p e1 = Card.release p e2 /\
  ((0 <= Card.swipeThreshold p)%Q -> (Card.translationX e1 == 0)%Q ->
   Card.commits p e1 = None /\ Card.commits p e2 = None).
Proof.
  intros Hx.
  assert (Hend : Card.onEnd p e1 = Card.onEnd p e2).
  { unfold Card.onEnd.
    rewrite (Qgt_bool_wd (Qabs (Card.translationX e1)) (Qabs (Card.translationX e2))
               (Card.swipeThreshold p) (Qabs_wd _ _ Hx)).
    rewrite (Qgt_bool_wd (Card.translationX e1) (Card.translationX e2) 0 Hx).
    reflexivity. }
  assert (Hcommits : Card.commits p e1 = Card.commits p e2)
    by (unfold Card.commits; rewrite Hend; reflexivity).
  split; [exact Hend|]. split; [exact Hcommits|].
  split; [unfold Card.release; rewrite Hend; reflexivity|].
  intros Hthr Hzero.
  assert (Hnone : Card.commits p e1 = None).
  { unfold Card.commits, Card.onEnd.
    assert (Hshould : Qgt_bool (Qabs (Card.translationX e1)) (Card.swipeThreshold p)
                      = false).
    { apply Qgt_bool_false_iff. rewrite Hzero. exact Hthr. }
    rewrite Hshould. reflexivity. }
  split; [exact Hnone | rewrite <- Hcommits; exact Hnone].
Qed.

Lemma C10_decision_ignores_vertical_witness :
  let e1 := {| Card.translationX := 0; Card.translationY := 0 |} in
  let e2 := {| Card.translationX := 0; Card.translationY := -300 |} in
  (Card.translationX e1 == Card.translationX e2)%Q /\
  (0 <= Card.swipeThreshold topCard)%Q /\
  Card.release topCard e1 = Card.release topCard e2 /\
  Card.commits topCard e2 = None.
Proof.
  intros e1 e2.
  assert (Hx : (Card.translationX e1 == Card.translationX e2)%Q) by reflexivity.
  assert (Hthr : (0 <= Card.swipeThreshold topCard)%Q) by (cbn; discriminate).
  destruct (C10_decision_ignores_vertical topCard e1 e2 Hx)
    as (_ & _ & Hrelease & Hvertical).
  split; [exact Hx|]. split; [exact Hthr|]. split; [exact Hrelease|].
  exact (proj2 (Hvertical Hthr (Qeq_refl 0))).
Defined.

(** * Further properties of the code *)

(** ** The rendered window *)

Lemma renderCardItem_Some {T : Type} (props : SuperSwiper.Props T)
  (s : SuperSwiper.State) (i : Z) (card : Card.CardProps) :
  SuperSwiper.renderCardItem props s i = Some card <->
  SuperSwiper.currentIndex s <= i
    < SuperSwiper.currentIndex s + SuperSwiper.stackSize props /\
  card = {| Card.index := i;
            Card.stackPosition := i - SuperSwiper.currentIndex s;
            Card.zIndex := SuperSwiper.cards_length props - i;
            Card.isActive := i =? SuperSwiper.currentIndex s;
            Card.swipeThreshold := SuperSwiper.swipeThreshold props;
            Card.disableLeftSwipe := SuperSwiper.disableLeftSwipe props;
            Card.disableRightSwipe := SuperSwiper.disableRightSwipe props |}.
Proof.
  unfold SuperSwiper.renderCardItem.
  destruct (Z.ltb_spec i (SuperSwiper.currentIndex s)); cbn [orb].
  - split; [discriminate | intros [? _]; lia].
  - destruct (Z.geb_spec i (SuperSwiper.currentIndex s + SuperSwiper.stackSize props)).
    + split; [discriminate | intros [? _]; lia].
    + split.
      * intros [= <-]. split; [lia | reflexivity].
      * intros [_ ->]. reflexivity.
Qed.

Lemma renderCards_In {T : Type} (props : SuperSwiper.Props T)
  (s : SuperSwiper.State) (card : Card.CardProps) :
  In (Some card) (SuperSwiper.renderCards props s) <->
  SuperSwiper.currentIndex s < SuperSwiper.cards_length props /\
  0 <= Card.index card < SuperSwiper.cards_length props /\
  SuperSwiper.renderCardItem props s (Card.index card) = Some card.
Proof.
  unfold SuperSwiper.renderCards.
  destruct (Z.geb_spec (SuperSwiper.currentIndex s) (SuperSwiper.cards_length props))
    as [Hge|Hlt].
  - split; [intros [] | intros [? _]; lia].
  - rewrite in_map_iff. split.
    + intros (k & Hk & Hin). apply in_seq in Hin.
      pose proof Hk as Hk'. apply renderCardItem_Some in Hk' as [_ ->].
      cbn [Card.index]. unfold SuperSwiper.cards_length.
      split; [exact Hlt | split; [lia | exact Hk]].
    + intros (_ & Hrange & Hk). exists (Z.to_nat (Card.index card)).
      rewrite Z2Nat.id by lia. split; [exact Hk|].
      apply in_seq. unfold SuperSwiper.cards_length in Hrange. lia.
Qed.

(** X1.  The cards a render mounts are exactly those whose index lies in
    the window [cursor, cursor + stackSize) and is an index of [cards]. *)
Theorem X1_visible_window {T : Type} (props : SuperSwiper.Props T)
  (s : SuperSwiper.State) (i : Z) :
  In i (visibleIndices props s) <->
  SuperSwiper.currentIndex s <= i
    < SuperSwiper.currentIndex s + SuperSwiper.stackSize props /\
  0 <= i < SuperSwiper.cards_length props.
Proof.
  unfold visibleIndices. rewrite in_flat_map. split.
  - intros ([card|] & Hin & Hi); [|destruct Hi].
    destruct Hi as [<- | []].
    apply renderCards_In in Hin as (_ & Hrange & Hitem).
    apply renderCardItem_Some in Hitem as [Hwin _]. split; assumption.
  - intros [Hwin Hrange].
    exists (Some {| Card.index := i;
                    Card.stackPosition := i - SuperSwiper.currentIndex s;
                    Card.zIndex := SuperSwiper.cards_length props - i;
                    Card.isActive := i =? SuperSwiper.currentIndex s;
                    Card.swipeThreshold := SuperSwiper.swipeThreshold props;
                    Card.disableLeftSwipe := SuperSwiper.disableLeftSwipe props;
                    Card.disableRightSwipe := SuperSwiper.disableRightSwipe props |}).
    split.
    + apply renderCards_In. cbn [Card.index].
      split; [lia | split; [exact Hrange|]].
      apply renderCardItem_Some. split; [exact Hwin | reflexivity].
    + cbn. left. reflexivity.
Qed.

(** X2.  Every mounted card sits at stack position [index - cursor], which
    lies in [0, stackSize), and gets z-index [cards.length - index], which
    lies in [1, cards.length]; it is the active card exactly when its stack
    position is 0; and of two mounted cards the one nearer the top of the
    stack has the larger z-index. *)
Theorem X2_mounted_card_layout {T : Type} (props : SuperSwiper.Props T)
  (s : SuperSwiper.State) (card other : Card.CardProps) :
  In (Some card) (SuperSwiper.renderCards props s) ->
  In (Some other) (SuperSwiper.renderCards props s) ->
  Card.stackPosition card = Card.index card - SuperSwiper.currentIndex s /\
  0 <= Card.stackPosition card < SuperSwiper.stackSize props /\
  Card.zIndex card = SuperSwiper.cards_length props - Card.index card /\
  1 <= Card.zIndex card <= SuperSwiper.cards_length props /\
  (Card.isActive card = true <-> Card.stackPosition card = 0) /\
  (Card.stackPosition card < Card.stackPosition other ->
   Card.zIndex other < Card.zIndex card).
Proof.
  intros Hc Ho.
  apply renderCards_In in Hc as (_ & Hrc & Hc).
  apply renderCards_In in Ho as (_ & Hro & Ho).
  apply renderCardItem_Some in Hc as [Hwc Hc].
  apply renderCardItem_Some in Ho as [Hwo Ho].
  rewrite Hc, Ho. cbn [Card.index Card.stackPosition Card.zIndex Card.isActive].
  rewrite Hc in Hrc, Hwc. rewrite Ho in Hro, Hwo. cbn [Card.index] in *.
  repeat split; try lia;
    try (intros Heq; apply Z.eqb_eq in Heq; lia);
    try (intros Heq; apply Z.eqb_eq; lia).
Qed.

Lemma X2_mounted_card_layout_witness :
  let s := SuperSwiper.controller (afterCommits fiveCards 1) in
  let top := SuperSwiper.activeCardProps fiveCards 1 in
  let back := {| Card.index := 3; Card.stackPosition := 2; Card.zIndex := 2;
                 Card.isActive := false;
                 Card.swipeThreshold := SuperSwiper.swipeThreshold fiveCards;
                 Card.disableLeftSwipe := false;
                 Card.disableRightSwipe := false |} in
  In (Some top) (SuperSwiper.renderCards fiveCards s) /\
  In (Some back) (SuperSwiper.renderCards fiveCards s) /\
  Card.zIndex back < Card.zIndex top.
Proof.
  intros s top back.
  assert (Ht : In (Some top) (SuperSwiper.renderCards fiveCards s))
    by (cbn; right; left; reflexivity).
  assert (Hb : In (Some back) (SuperSwiper.renderCards fiveCards s))
    by (cbn; right; right; right; left; reflexivity).
  split; [exact Ht | split; [exact Hb|]].
  destruct (X2_mounted_card_layout fiveCards s top back Ht Hb)
    as (_ & _ & _ & _ & _ & Horder).
  apply Horder. cbn. lia.
Defined.

(** X3.  After a render, [activeCardRef] holds a card exactly when the
    cursor is on a card and [stackSize] is positive; the card it holds is the
    one at the cursor, at stack position 0, with the controller's threshold
    and disable flags.  With the cursor past the last card, before the first,
    or with an empty window, the ref is [null]. *)
Theorem X3_active_card_ref {T : Type} (props : SuperSwiper.Props T)
  (s : SuperSwiper.State) :
  SuperSwiper.activeCardRef props s
  = if (0 <=? SuperSwiper.currentIndex s)
       && (SuperSwiper.currentIndex s <? SuperSwiper.cards_length props)
       && (0 <? SuperSwiper.stackSize props)
    then Some {| Card.index := SuperSwiper.currentIndex s;
                 Card.stackPosition := 0;
                 Card.zIndex := SuperSwiper.cards_length props
                                - SuperSwiper.currentIndex s;
                 Card.isActive := true;
                 Card.swipeThreshold := SuperSwiper.swipeThreshold props;
                 Card.disableLeftSwipe := SuperSwiper.disableLeftSwipe props;
                 Card.disableRightSwipe := SuperSwiper.disableRightSwipe props |}
    else None.
Proof.
  exact (activeCardRef_spec props s).
Qed.

(** ** When a swipe is accepted *)

Lemma hasActiveCard_ref {T : Type} (props : SuperSwiper.Props T) (w : SuperSwiper.Widget) :
  SuperSwiper.activeCardRef props (SuperSwiper.controller w)
  = if hasActiveCard props w
    then Some (SuperSwiper.activeCardProps props
                 (SuperSwiper.currentIndex (SuperSwiper.controller w)))
    else None.
Proof. apply activeCardRef_spec. Qed.

Lemma hasActiveCard_below_length {T : Type} (props : SuperSwiper.Props T)
  (w : SuperSwiper.Widget) :
  (SuperSwiper.currentIndex (SuperSwiper.controller w)
   >=? SuperSwiper.cards_length props) = true ->
  hasActiveCard props w = false.
Proof.
  intros H. unfold hasActiveCard.
  destruct (Z.geb_spec (SuperSwiper.currentIndex (SuperSwiper.controller w))
              (SuperSwiper.cards_length props)); [|discriminate].
  destruct (Z.ltb_spec (SuperSwiper.currentIndex (SuperSwiper.controller w))
              (SuperSwiper.cards_length props)); [lia|].
  rewrite andb_false_r. reflexivity.
Qed.

Lemma callActiveCard_trigger {T : Type} (props : SuperSwiper.Props T)
  (w : SuperSwiper.Widget) (direction : SwipeDirection) (m : CardMethod) :
  (forall p, Card.handle p m = Some (Card.triggerFullSwipe p direction)) ->
  SuperSwiper.callActiveCard props w m
  = if hasActiveCard props w
       && Card.enabledFor
            (SuperSwiper.activeCardProps props
               (SuperSwiper.currentIndex (SuperSwiper.controller w))) direction
    then (startedWidget direction w, [OnSwipeStart direction])
    else (w, []).
Proof.
  intros Hm. unfold SuperSwiper.callActiveCard.
  rewrite hasActiveCard_ref.
  destruct (hasActiveCard props w); cbn [andb]; [|reflexivity].
  rewrite Hm.
  destruct (triggerFullSwipe_cases
              (SuperSwiper.activeCardProps props
                 (SuperSwiper.currentIndex (SuperSwiper.controller w))) direction)
    as [Hno | (_ & Hen & ->)].
  - rewrite Hno, react_nothing.
    destruct (Card.enabledFor _ direction) eqn:Hen; [|reflexivity].
    exfalso. revert Hno Hen.
    unfold Card.triggerFullSwipe, Card.enabledFor.
    destruct direction;
      destruct (Card.disableLeftSwipe _), (Card.disableRightSwipe _);
      cbn; discriminate.
  - rewrite Hen. apply react_started.
Qed.

Lemma step_swipeLeft_eq {T : Type} (props : SuperSwiper.Props T) (w : SuperSwiper.Widget) :
  SuperSwiper.step props w SuperSwiper.SwipeLeft
  = if negb (SuperSwiper.disableLeftSwipe props)
       && negb (SuperSwiper.isTransitioning (SuperSwiper.controller w))
       && hasActiveCard props w
    then (startedWidget Left w, [OnSwipeStart Left])
    else (w, []).
Proof.
  cbn [SuperSwiper.step]. unfold SuperSwiper.swipeLeft, bind, ret,
    SuperSwiper.get_isTransitioning, SuperSwiper.get_currentIndex.
  destruct (SuperSwiper.disableLeftSwipe props) eqn:Hflag; cbn [orb negb andb];
    [reflexivity|].
  destruct (SuperSwiper.isTransitioning (SuperSwiper.controller w));
    cbn [orb negb andb]; [reflexivity|].
  destruct (SuperSwiper.currentIndex (SuperSwiper.controller w)
            >=? SuperSwiper.cards_length props) eqn:Hend.
  - rewrite (hasActiveCard_below_length props w Hend). reflexivity.
  - rewrite (callActiveCard_trigger props w Left) by reflexivity.
    cbn [Card.enabledFor SuperSwiper.activeCardProps Card.disableLeftSwipe].
    rewrite Hflag. cbn [negb]. rewrite andb_true_r. reflexivity.
Qed.

Lemma step_swipeRight_eq {T : Type} (props : SuperSwiper.Props T) (w : SuperSwiper.Widget) :
  SuperSwiper.step props w SuperSwiper.SwipeRight
  = if negb (SuperSwiper.disableRightSwipe props)
       && negb (SuperSwiper.isTransitioning (SuperSwiper.controller w))
       && hasActiveCard props w
    then (startedWidget Right w, [OnSwipeStart Right])
    else (w, []).
Proof.
  cbn [SuperSwiper.step]. unfold SuperSwiper.swipeRight, bind, ret,
    SuperSwiper.get_isTransitioning, SuperSwiper.get_currentIndex.
  destruct (SuperSwiper.disableRightSwipe props) eqn:Hflag; cbn [orb negb andb];
    [reflexivity|].
  destruct (SuperSwiper.isTransitioning (SuperSwiper.controller w));
    cbn [orb negb andb]; [reflexivity|].
  destruct (SuperSwiper.currentIndex (SuperSwiper.controller w)
            >=? SuperSwiper.cards_length props) eqn:Hend.
  - rewrite (hasActiveCard_below_length props w Hend). reflexivity.
  - rewrite (callActiveCard_trigger props w Right) by reflexivity.
    cbn [Card.enabledFor SuperSwiper.activeCardProps Card.disableRightSwipe].
    rewrite Hflag. cbn [negb]. rewrite andb_true_r. reflexivity.
Qed.

Lemma commits_enabled (p : Card.CardProps) (event : Card.PanEvent)
  (direction : SwipeDirection) :
  Card.commits p event = Some direction -> Card.enabledFor p direction = true.
Proof.
  unfold Card.commits.
  destruct (Card.onEnd p event) as [d|]; [|discriminate].
  destruct (triggerFullSwipe_cases p d) as [-> | (_ & Hen & ->)]; [discriminate|].
  cbn. intros [= <-]. exact Hen.
Qed.

Lemma step_panEnd_eq {T : Type} (props : SuperSwiper.Props T) (w : SuperSwiper.Widget)
  (event : Card.PanEvent) :
  SuperSwiper.step props w (SuperSwiper.PanEnd event)
  = if hasActiveCard props w
    then match Card.commits
                 (SuperSwiper.activeCardProps props
                    (SuperSwiper.currentIndex (SuperSwiper.controller w))) event with
         | Some direction => (startedWidget direction w, [OnSwipeStart direction])
         | None => (w, [])
         end
    else (w, []).
Proof.
  cbn [SuperSwiper.step]. rewrite hasActiveCard_ref.
  destruct (hasActiveCard props w); [|reflexivity].
  unfold Card.release, Card.commits.
  change (Card.isActive
            (SuperSwiper.activeCardProps props
               (SuperSwiper.currentIndex (SuperSwiper.controller w)))) with true.
  cbv iota.
  destruct (Card.onEnd _ event) as [d|]; [|apply react_nothing].
  destruct (triggerFullSwipe_cases
              (SuperSwiper.activeCardProps props
                 (SuperSwiper.currentIndex (SuperSwiper.controller w))) d)
    as [Hno | (_ & _ & Hyes)].
  - rewrite Hno. apply react_nothing.
  - rewrite Hyes. apply react_started.
Qed.

(** X4.  A programmatic [swipeLeft] (or [swipeRight]) is accepted exactly
    when its direction is not disabled, the transition flag is clear, the
    cursor is on a card and the window is not empty; it then sets the flag,
    starts the exit animation and calls [onSwipeStart] with its direction.
    In every other case (disabled direction, pending transition, exhausted
    stack, cursor before the first card, non-positive [stackSize]) nothing
    changes and nobody is notified. *)
Theorem X4_programmatic_swipe_acceptance {T : Type} (props : SuperSwiper.Props T)
  (w : SuperSwiper.Widget) :
  SuperSwiper.step props w SuperSwiper.SwipeLeft
  = (if negb (SuperSwiper.disableLeftSwipe props)
        && negb (SuperSwiper.isTransitioning (SuperSwiper.controller w))
        && ((0 <=? SuperSwiper.currentIndex (SuperSwiper.controller w))
            && (SuperSwiper.currentIndex (SuperSwiper.controller w)
                <? SuperSwiper.cards_length props)
            && (0 <? SuperSwiper.stackSize props))
     then ({| SuperSwiper.controller :=
                SuperSwiper.withTransitioning true (SuperSwiper.controller w);
              SuperSwiper.exiting := Some Left |}, [OnSwipeStart Left])
     else (w, [])) /\
  SuperSwiper.step props w SuperSwiper.SwipeRight
  = (if negb (SuperSwiper.disableRightSwipe props)
        && negb (SuperSwiper.isTransitioning (SuperSwiper.controller w))
        && ((0 <=? SuperSwiper.currentIndex (SuperSwiper.controller w))
            && (SuperSwiper.currentIndex (SuperSwiper.controller w)
                <? SuperSwiper.cards_length props)
            && (0 <? SuperSwiper.stackSize props))
     then ({| SuperSwiper.controller :=
                SuperSwiper.withTransitioning true (SuperSwiper.controller w);
              SuperSwiper.exiting := Some Right |}, [OnSwipeStart Right])
     else (w, [])).
Proof.
  split; [apply step_swipeLeft_eq | apply step_swipeRight_eq].
Qed.

(** X5.  A drag release on a widget with an active card starts a commit
    exactly when the card's release test commits, and then does what a
    programmatic swipe does (flag set, exit animation started,
    [onSwipeStart] called); otherwise, and on a widget without an active
    card, nothing changes.  The transition flag is not consulted: a release
    past the threshold starts a commit while another one is pending. *)
Theorem X5_gesture_release_acceptance {T : Type} (props : SuperSwiper.Props T)
  (w : SuperSwiper.Widget) (event : Card.PanEvent) :
  SuperSwiper.step props w (SuperSwiper.PanEnd event)
  = (if (0 <=? SuperSwiper.currentIndex (SuperSwiper.controller w))
        && (SuperSwiper.currentIndex (SuperSwiper.controller w)
            <? SuperSwiper.cards_length props)
        && (0 <? SuperSwiper.stackSize props)
     then match Card.commits
                  (SuperSwiper.activeCardProps props
                     (SuperSwiper.currentIndex (SuperSwiper.controller w))) event with
          | Some direction =>
              ({| SuperSwiper.controller :=
                    SuperSwiper.withTransitioning true (SuperSwiper.controller w);
                  SuperSwiper.exiting := Some direction |},
               [OnSwipeStart direction])
          | None => (w, [])
          end
     else (w, [])) /\
  (forall v,
     snd (SuperSwiper.step props (SuperSwiper.widgetWithTransitioning v w)
            (SuperSwiper.PanEnd event))
     = snd (SuperSwiper.step props w (SuperSwiper.PanEnd event))).
Proof.
  split; [apply step_panEnd_eq|].
  intros v. rewrite !step_panEnd_eq.
  unfold hasActiveCard, SuperSwiper.widgetWithTransitioning.
  cbn [SuperSwiper.controller SuperSwiper.withTransitioning SuperSwiper.currentIndex].
  destruct ((0 <=? SuperSwiper.currentIndex (SuperSwiper.controller w))
            && (SuperSwiper.currentIndex (SuperSwiper.controller w)
                <? SuperSwiper.cards_length props)
            && (0 <? SuperSwiper.stackSize props)); [|reflexivity].
  destruct (Card.commits _ event); reflexivity.
Qed.

(** ** What the embedder is never told *)

Lemma enabledFor_active {T : Type} (props : SuperSwiper.Props T) (current : Z)
  (direction : SwipeDirection) :
  Card.enabledFor (SuperSwiper.activeCardProps props current) direction
  = negb (disabledIn props direction).
Proof. destruct direction; reflexivity. Qed.

Section DisabledDirections.

Context {T : Type} (props : SuperSwiper.Props T).

Lemma quiet_start (d : SwipeDirection) :
  disabledIn props d = false -> quietAbout props (OnSwipeStart d).
Proof.
  intros Hd d' Hd'. split.
  - intros [= ->]. congruence.
  - intros i. destruct d'; discriminate.
Qed.

Lemma quiet_end (i : Z) : quietAbout props (OnSwipeEnd i).
Proof.
  intros d' _. split; [discriminate | intros j; destruct d'; discriminate].
Qed.

Lemma quiet_back : quietAbout props OnSwipeBack.
Proof.
  intros d' _. split; [discriminate | intros j; destruct d'; discriminate].
Qed.

Lemma quiet_completion (d : SwipeDirection) (i : Z) :
  disabledIn props d = false ->
  quietAbout props (if SwipeDirection_eqb d Left then OnSwipedLeft i else OnSwipedRight i).
Proof.
  intros Hd d' Hd'. split.
  - destruct (SwipeDirection_eqb d Left); discriminate.
  - intros j. destruct d, d'; cbn in *; try discriminate; congruence.
Qed.

Lemma step_quiet (w : SuperSwiper.Widget) (ev : SuperSwiper.Event) :
  exitingEnabled props w ->
  exitingEnabled props (fst (SuperSwiper.step props w ev)) /\
  Forall (quietAbout props) (snd (SuperSwiper.step props w ev)).
Proof.
  intros Hw.
  assert (Hstarted : forall d, disabledIn props d = false ->
            exitingEnabled props (startedWidget d w) /\ Forall (quietAbout props) [OnSwipeStart d]).
  { intros d Hd. split.
    - intros d' [= <-]. exact Hd.
    - constructor; [apply quiet_start; exact Hd | constructor]. }
  destruct ev as [ | | | index | event | finished].
  - rewrite step_swipeLeft_eq.
    destruct (SuperSwiper.disableLeftSwipe props) eqn:Hflag; cbn [negb andb];
      [split; [exact Hw | constructor]|].
    destruct (negb _ && _); [apply (Hstarted Left); exact Hflag
                            | split; [exact Hw | constructor]].
  - rewrite step_swipeRight_eq.
    destruct (SuperSwiper.disableRightSwipe props) eqn:Hflag; cbn [negb andb];
      [split; [exact Hw | constructor]|].
    destruct (negb _ && _); [apply (Hstarted Right); exact Hflag
                            | split; [exact Hw | constructor]].
  - pose proof (step_transition props w SuperSwiper.SwipeBack) as Ht.
    destruct (SuperSwiper.step props w SuperSwiper.SwipeBack) as [w1 l1].
    cbn [fst snd] in *. inversion Ht; subst.
    + split; [exact Hw | constructor].
    + discriminate.
    + split; [exact Hw | constructor; [apply quiet_back | constructor]].
  - pose proof (step_transition props w (SuperSwiper.JumpToCardIndex index)) as Ht.
    destruct (SuperSwiper.step props w (SuperSwiper.JumpToCardIndex index)) as [w1 l1].
    cbn [fst snd] in *. inversion Ht; subst.
    + split; [exact Hw | constructor].
    + discriminate.
    + split; [exact Hw | constructor].
  - rewrite step_panEnd_eq.
    destruct (hasActiveCard props w); [|split; [exact Hw | constructor]].
    destruct (Card.commits _ event) as [d|] eqn:Hc;
      [|split; [exact Hw | constructor]].
    apply Hstarted. apply commits_enabled in Hc.
    rewrite enabledFor_active in Hc. apply negb_true_iff. exact Hc.
  - pose proof (step_transition props w (SuperSwiper.AnimationCallback finished)) as Ht.
    destruct (SuperSwiper.step props w (SuperSwiper.AnimationCallback finished))
      as [w1 l1].
    cbn [fst snd] in *. inversion Ht; subst.
    + split; [exact Hw | constructor].
    + discriminate.
    + split; [intros d' [=]|].
      constructor; [apply quiet_completion; apply Hw; assumption|].
      constructor; [apply quiet_end | constructor].
    + split; [intros d' [=] | constructor].
Qed.

Lemma run_quiet (evs : list SuperSwiper.Event) (w : SuperSwiper.Widget) :
  exitingEnabled props w -> Forall (quietAbout props) (snd (SuperSwiper.run props evs w)).
Proof.
  revert w. induction evs as [|ev evs IH]; intros w Hw; [constructor|].
  rewrite run_cons_snd. destruct (step_quiet w ev Hw) as [Hw1 Hlog].
  apply Forall_app. split; [exact Hlog | apply IH; exact Hw1].
Qed.

End DisabledDirections.

(** X6.  When a direction is disabled in the props, the embedder never
    hears of a swipe in that direction, whatever is done to the widget
    (handle calls, drags, animation callbacks): neither [onSwipeStart] with
    that direction nor the direction's completion callback is ever called.
    The same holds for the up direction, which the controller cannot
    enable. *)
Theorem X6_disabled_direction_is_silent {T : Type} (props : SuperSwiper.Props T)
  (evs : list SuperSwiper.Event) (direction : SwipeDirection) (n : Notification) :
  disabledIn props direction = true ->
  In n (snd (SuperSwiper.run props evs (SuperSwiper.mountWidget props))) ->
  n <> OnSwipeStart direction /\
  forall cardIndex, n <> spec_committedNotification direction cardIndex.
Proof.
  intros Hd Hin.
  assert (Hq : Forall (quietAbout props)
                 (snd (SuperSwiper.run props evs (SuperSwiper.mountWidget props)))).
  { apply run_quiet. intros d. cbn. discriminate. }
  rewrite Forall_forall in Hq. exact (Hq n Hin direction Hd).
Qed.

Lemma X6_disabled_direction_is_silent_witness :
  let evs := [SuperSwiper.PanEnd {| Card.translationX := -150; Card.translationY := 0 |};
              SuperSwiper.SwipeLeft; SuperSwiper.SwipeRight;
              SuperSwiper.AnimationCallback true] in
  disabledIn leftDisabled Left = true /\
  snd (SuperSwiper.run leftDisabled evs (SuperSwiper.mountWidget leftDisabled))
  = [OnSwipeStart Right; OnSwipedRight 0; OnSwipeEnd 0] /\
  OnSwipedRight 0 <> OnSwipeStart Left /\
  forall cardIndex, OnSwipedRight 0 <> spec_committedNotification Left cardIndex.
Proof.
  intros evs.
  assert (Hd : disabledIn leftDisabled Left = true) by reflexivity.
  assert (Hlog : snd (SuperSwiper.run leftDisabled evs
                        (SuperSwiper.mountWidget leftDisabled))
                 = [OnSwipeStart Right; OnSwipedRight 0; OnSwipeEnd 0])
    by reflexivity.
  split; [exact Hd | split; [exact Hlog|]].
  apply (X6_disabled_direction_is_silent leftDisabled evs Left (OnSwipedRight 0) Hd).
  rewrite Hlog. cbn. right. left. reflexivity.
Defined.

(** ** The transition flag *)

(** X8.  The flag is cleared only by a completion or cancel call from the
    card.  Once it is set with no exit animation in flight (the animation
    callback ran with [finished = false]), no sequence of handle calls clears
    it or starts a swipe: [swipeLeft] and [swipeRight] stay without effect,
    and the only callback the embedder can still receive from handle calls
    is [onSwipeBack]. *)
Theorem X8_interrupted_swipe_blocks_handle {T : Type} (props : SuperSwiper.Props T)
  (evs : list SuperSwiper.Event) (w : SuperSwiper.Widget) :
  forallb handleCall evs = true ->
  SuperSwiper.isTransitioning (SuperSwiper.controller w) = true ->
  SuperSwiper.exiting w = None ->
  SuperSwiper.isTransitioning
    (SuperSwiper.controller (fst (SuperSwiper.run props evs w))) = true /\
  SuperSwiper.exiting (fst (SuperSwiper.run props evs w)) = None /\
  forall n, In n (snd (SuperSwiper.run props evs w)) -> n = OnSwipeBack.
Proof.
  revert w. induction evs as [|ev evs IH]; intros w Hevs Hlock Hex.
  - cbn. split; [exact Hlock | split; [exact Hex | intros n []]].
  - cbn [forallb] in Hevs. apply andb_true_iff in Hevs as [Hev Hevs].
    rewrite run_cons_fst, run_cons_snd.
    assert (Hstep : SuperSwiper.isTransitioning
                      (SuperSwiper.controller (fst (SuperSwiper.step props w ev))) = true /\
                    SuperSwiper.exiting (fst (SuperSwiper.step props w ev)) = None /\
                    forall n, In n (snd (SuperSwiper.step props w ev)) -> n = OnSwipeBack).
    { destruct ev as [ | | | index | event | finished]; try discriminate.
      - rewrite step_swipeLeft_eq, Hlock. cbn [negb andb]. rewrite andb_false_r.
        cbn [fst snd]. split; [exact Hlock | split; [exact Hex | intros n []]].
      - rewrite step_swipeRight_eq, Hlock. cbn [negb andb]. rewrite andb_false_r.
        cbn [fst snd]. split; [exact Hlock | split; [exact Hex | intros n []]].
      - pose proof (step_transition props w SuperSwiper.SwipeBack) as Ht.
        destruct (SuperSwiper.step props w SuperSwiper.SwipeBack) as [w1 l1].
        cbn [fst snd] in *. inversion Ht; subst; cbn; try discriminate.
        + split; [exact Hlock | split; [exact Hex | intros n []]].
        + split; [exact Hlock | split; [exact Hex|]].
          intros n [<- | []]. reflexivity.
      - pose proof (step_transition props w (SuperSwiper.JumpToCardIndex index)) as Ht.
        destruct (SuperSwiper.step props w (SuperSwiper.JumpToCardIndex index))
          as [w1 l1].
        cbn [fst snd] in *. inversion Ht; subst; cbn; try discriminate.
        + split; [exact Hlock | split; [exact Hex | intros n []]].
        + split; [exact Hlock | split; [exact Hex | intros n []]]. }
    destruct Hstep as (Hlock1 & Hex1 & Hlog1).
    destruct (IH _ Hevs Hlock1 Hex1) as (Hlock2 & Hex2 & Hlog2).
    split; [exact Hlock2 | split; [exact Hex2|]].
    intros n Hin. apply in_app_iff in Hin as [Hin | Hin]; auto.
Qed.

Lemma X8_interrupted_swipe_blocks_handle_witness :
  let w := fst (SuperSwiper.run fiveCards
                  [SuperSwiper.SwipeRight; SuperSwiper.AnimationCallback true;
                   SuperSwiper.SwipeRight; SuperSwiper.AnimationCallback false]
                  (SuperSwiper.mountWidget fiveCards)) in
  let evs := [SuperSwiper.SwipeLeft; SuperSwiper.JumpToCardIndex 3;
              SuperSwiper.SwipeRight; SuperSwiper.SwipeBack; SuperSwiper.SwipeRight] in
  SuperSwiper.isTransitioning (SuperSwiper.controller w) = true /\
  SuperSwiper.exiting w = None /\
  snd (SuperSwiper.run fiveCards evs w) = [OnSwipeBack] /\
  SuperSwiper.isTransitioning
    (SuperSwiper.controller (fst (SuperSwiper.run fiveCards evs w))) = true.
Proof.
  intros w evs.
  assert (Hlock : SuperSwiper.isTransitioning (SuperSwiper.controller w) = true)
    by reflexivity.
  assert (Hex : SuperSwiper.exiting w = None) by reflexivity.
  split; [exact Hlock | split; [exact Hex | split; [reflexivity|]]].
  exact (proj1 (X8_interrupted_swipe_blocks_handle fiveCards evs w eq_refl Hlock Hex)).
Defined.

(** ** Jumps and undo *)

(** X9.  A jump to a card index moves the cursor there and leaves the
    history alone, so a following [swipeBack] does not return to the last
    swiped card: it steps from the jump target to the index before it and
    drops the newest history entry; after a jump to index 0, or with an empty
    history, it does nothing. *)
Theorem X9_swipeBack_after_jump {T : Type} (props : SuperSwiper.Props T)
  (w : SuperSwiper.Widget) (index : Z) :
  0 <= index < SuperSwiper.cards_length props ->
  SuperSwiper.run props [SuperSwiper.JumpToCardIndex index; SuperSwiper.SwipeBack] w
  = if (index <=? 0)
       || Nat.eqb (length (SuperSwiper.swipedCardIndices (SuperSwiper.controller w))) 0
    then ({| SuperSwiper.controller :=
               {| SuperSwiper.currentIndex := index;
                  SuperSwiper.isTransitioning :=
                    SuperSwiper.isTransitioning (SuperSwiper.controller w);
                  SuperSwiper.swipedCardIndices :=
                    SuperSwiper.swipedCardIndices (SuperSwiper.controller w);
                  SuperSwiper.forceRenderKey :=
                    SuperSwiper.forceRenderKey (SuperSwiper.controller w) + 1 |};
             SuperSwiper.exiting := SuperSwiper.exiting w |}, [])
    else ({| SuperSwiper.controller :=
               {| SuperSwiper.currentIndex := index - 1;
                  SuperSwiper.isTransitioning :=
                    SuperSwiper.isTransitioning (SuperSwiper.controller w);
                  SuperSwiper.swipedCardIndices :=
                    removelast (SuperSwiper.swipedCardIndices (SuperSwiper.controller w));
                  SuperSwiper.forceRenderKey :=
                    SuperSwiper.forceRenderKey (SuperSwiper.controller w) + 1 |};
             SuperSwiper.exiting := SuperSwiper.exiting w |}, [OnSwipeBack]).
Proof.
  intros Hrange. cbn [SuperSwiper.run SuperSwiper.step].
  unfold SuperSwiper.runHandler. rewrite jumpToCardIndex_eq.
  destruct (Z.ltb_spec index 0); [lia|].
  destruct (Z.geb_spec index (SuperSwiper.cards_length props)); [lia|].
  cbn [orb SuperSwiper.controller SuperSwiper.exiting].
  rewrite swipeBack_eq.
  cbn [SuperSwiper.jumpedState SuperSwiper.currentIndex SuperSwiper.swipedCardIndices].
  destruct ((index <=? 0)
            || Nat.eqb (length (SuperSwiper.swipedCardIndices (SuperSwiper.controller w))) 0);
    reflexivity.
Qed.

Lemma X9_swipeBack_after_jump_witness :
  let w := afterCommits fiveCards 2 in
  fst (SuperSwiper.run fiveCards
         [SuperSwiper.JumpToCardIndex 4; SuperSwiper.SwipeBack] w)
  = {| SuperSwiper.controller :=
         {| SuperSwiper.currentIndex := 3;
            SuperSwiper.isTransitioning := false;
            SuperSwiper.swipedCardIndices := [0];
            SuperSwiper.forceRenderKey := 1 |};
       SuperSwiper.exiting := None |}.
Proof.
  intros w.
  assert (Hrange : 0 <= 4 < SuperSwiper.cards_length fiveCards) by (cbn; lia).
  rewrite (X9_swipeBack_after_jump fiveCards w 4 Hrange). reflexivity.
Defined.

(** X10.  From any state whose cursor is not negative, the completion of
    a commit followed by [swipeBack] restores the cursor, the history and the
    render key exactly, with the transition flag cleared; the embedder hears
    the two completion callbacks and then [onSwipeBack]. *)
Theorem X10_commit_then_undo {T : Type} (props : SuperSwiper.Props T)
  (w : SuperSwiper.Widget) (direction : SwipeDirection) :
  SuperSwiper.exiting w = Some direction ->
  0 <= SuperSwiper.currentIndex (SuperSwiper.controller w) ->
  SuperSwiper.run props [SuperSwiper.AnimationCallback true; SuperSwiper.SwipeBack] w
  = ({| SuperSwiper.controller :=
          SuperSwiper.withTransitioning false (SuperSwiper.controller w);
        SuperSwiper.exiting := None |},
     completionNotifications direction
       (SuperSwiper.currentIndex (SuperSwiper.controller w)) ++ [OnSwipeBack]).
Proof.
  intros Hex Hcur. cbn [SuperSwiper.run SuperSwiper.step]. rewrite Hex.
  rewrite animationFinished_eq. cbn [SuperSwiper.controller SuperSwiper.exiting].
  unfold SuperSwiper.runHandler. cbn [SuperSwiper.controller SuperSwiper.exiting].
  rewrite swipeBack_eq.
  cbn [SuperSwiper.completedState SuperSwiper.currentIndex
       SuperSwiper.swipedCardIndices].
  destruct (Z.leb_spec (SuperSwiper.currentIndex (SuperSwiper.controller w) + 1) 0);
    [lia|].
  rewrite length_app. cbn [length orb].
  replace (length (SuperSwiper.swipedCardIndices (SuperSwiper.controller w)) + 1)%nat
    with (S (length (SuperSwiper.swipedCardIndices (SuperSwiper.controller w))))
    by lia.
  cbn [Nat.eqb]. unfold SuperSwiper.undoneState, SuperSwiper.withTransitioning.
  cbn [SuperSwiper.currentIndex SuperSwiper.swipedCardIndices
       SuperSwiper.isTransitioning SuperSwiper.forceRenderKey].
  unfold SuperSwiper.completedState.
  cbn [SuperSwiper.currentIndex SuperSwiper.swipedCardIndices
       SuperSwiper.isTransitioning SuperSwiper.forceRenderKey].
  rewrite removelast_last.
  replace (SuperSwiper.currentIndex (SuperSwiper.controller w) + 1 - 1)
    with (SuperSwiper.currentIndex (SuperSwiper.controller w)) by lia.
  reflexivity.
Qed.

Lemma X10_commit_then_undo_witness :
  let w := fst (SuperSwiper.run fiveCards
                  [SuperSwiper.SwipeRight; SuperSwiper.AnimationCallback true;
                   SuperSwiper.JumpToCardIndex 3; SuperSwiper.SwipeLeft]
                  (SuperSwiper.mountWidget fiveCards)) in
  SuperSwiper.exiting w = Some Left /\
  SuperSwiper.run fiveCards
    [SuperSwiper.AnimationCallback true; SuperSwiper.SwipeBack] w
  = ({| SuperSwiper.controller :=
          {| SuperSwiper.currentIndex := 3;
             SuperSwiper.isTransitioning := false;
             SuperSwiper.swipedCardIndices := [0];
             SuperSwiper.forceRenderKey := 1 |};
        SuperSwiper.exiting := None |},
     [OnSwipedLeft 3; OnSwipeEnd 3; OnSwipeBack]).
Proof.
  intros w.
  assert (Hex : SuperSwiper.exiting w = Some Left) by reflexivity.
  assert (Hcur : 0 <= SuperSwiper.currentIndex (SuperSwiper.controller w))
    by (cbn; lia).
  split; [exact Hex|].
  exact (X10_commit_then_undo fiveCards w Left Hex Hcur).
Defined.

Lemma contiguous_step {T : Type} (props : SuperSwiper.Props T)
  (c : Live.Component) (ev : Live.Event) :
  notJump ev = true ->
  0 <= SuperSwiper.currentIndex (Live.current c) ->
  SuperSwiper.swipedCardIndices (Live.current c)
  = consumedIndices 0 (Z.to_nat (SuperSwiper.currentIndex (Live.current c))) ->
  0 <= SuperSwiper.currentIndex (Live.current (fst (Live.step props c ev))) /\
  SuperSwiper.swipedCardIndices (Live.current (fst (Live.step props c ev)))
  = consumedIndices 0
      (Z.to_nat (SuperSwiper.currentIndex (Live.current (fst (Live.step props c ev))))).
Proof.
  intros Hev Hpos Hhist.
  pose proof (Live_step_change props c ev) as Hch.
  destruct (Live.step props c ev) as [c1 l1]. cbn [fst snd] in *.
  inversion Hch; subst; cbn.
  - split; assumption.
  - split; assumption.
  - split; [lia|]. rewrite Hhist.
    replace (Z.to_nat (SuperSwiper.currentIndex (Live.current c) + 1))
      with (S (Z.to_nat (SuperSwiper.currentIndex (Live.current c)))) by lia.
    rewrite consumedIndices_S. do 2 f_equal. lia.
  - split; [lia|]. rewrite Hhist.
    replace (Z.to_nat (SuperSwiper.currentIndex (Live.current c)))
      with (S (Z.to_nat (SuperSwiper.currentIndex (Live.current c) - 1))) by lia.
    rewrite consumedIndices_S. unfold slice_0_minus1.
    rewrite removelast_last. reflexivity.
  - discriminate Hev.
Qed.

(** X11.  Started at index 0, without jumps the history (with every queued
    update applied) is exactly the run of indices from 0 up to the cursor,
    oldest first, whatever the order of the events and wherever the
    component re-renders between them. *)
Theorem X11_history_is_contiguous {T : Type} (props : SuperSwiper.Props T)
  (evs : list Live.Event) :
  SuperSwiper.initialCardIndex props = 0 ->
  forallb notJump evs = true ->
  0 <= SuperSwiper.currentIndex
         (Live.current (fst (Live.run props evs (Live.mount props)))) /\
  SuperSwiper.swipedCardIndices
    (Live.current (fst (Live.run props evs (Live.mount props))))
  = consumedIndices 0
      (Z.to_nat (SuperSwiper.currentIndex
                   (Live.current (fst (Live.run props evs (Live.mount props)))))).
Proof.
  intros Hinit Hevs.
  assert (Hgen : forall c : Live.Component,
             0 <= SuperSwiper.currentIndex (Live.current c) ->
             SuperSwiper.swipedCardIndices (Live.current c)
             = consumedIndices 0 (Z.to_nat (SuperSwiper.currentIndex (Live.current c))) ->
             0 <= SuperSwiper.currentIndex (Live.current (fst (Live.run props evs c))) /\
             SuperSwiper.swipedCardIndices (Live.current (fst (Live.run props evs c)))
             = consumedIndices 0
                 (Z.to_nat (SuperSwiper.currentIndex
                              (Live.current (fst (Live.run props evs c)))))).
  { induction evs as [|ev evs IH]; intros c Hpos Hhist; [split; assumption|].
    cbn [forallb] in Hevs. apply andb_true_iff in Hevs as [Hev Hrest].
    rewrite Live_run_cons_fst.
    destruct (contiguous_step props c ev Hev Hpos Hhist) as [Hpos1 Hhist1].
    exact (IH Hrest _ Hpos1 Hhist1). }
  apply Hgen; cbn; rewrite Hinit; [lia | reflexivity].
Qed.

Lemma X11_history_is_contiguous_witness :
  let evs := [Live.SwipeRight; Live.AnimationCallback 0 true; Live.SwipeLeft;
              Live.AnimationCallback 0 true; Live.Render;
              Live.PanEnd {| Card.translationX := 150; Card.translationY := 4 |};
              Live.AnimationCallback 2 true; Live.SwipeBack; Live.SwipeBack] in
  SuperSwiper.initialCardIndex fiveCards = 0 /\
  SuperSwiper.swipedCardIndices
    (Live.current (fst (Live.run fiveCards evs (Live.mount fiveCards)))) = [0] /\
  SuperSwiper.swipedCardIndices
    (Live.current (fst (Live.run fiveCards evs (Live.mount fiveCards))))
  = consumedIndices 0
      (Z.to_nat (SuperSwiper.currentIndex
                   (Live.current (fst (Live.run fiveCards evs (Live.mount fiveCards)))))).
Proof.
  intros evs. split; [reflexivity|]. split; [reflexivity|].
  exact (proj2 (X11_history_is_contiguous fiveCards evs eq_refl eq_refl)).
Defined.

(** ** What the embedder is told *)

Lemma run_indices_valid {T : Type} (props : SuperSwiper.Props T)
  (evs : list SuperSwiper.Event) (w : SuperSwiper.Widget) (n : Notification) (i : Z) :
  cursorInRange props w ->
  In n (snd (SuperSwiper.run props evs w)) ->
  committedIndex n = Some i ->
  0 <= i < SuperSwiper.cards_length props.
Proof.
  revert w. induction evs as [|ev evs IH]; intros w Hw; [intros []|].
  rewrite run_cons_snd, in_app_iff. intros [Hin | Hin] Hi;
    [|exact (IH _ (cursorInRange_step props w ev Hw) Hin Hi)].
  destruct Hw as [Hrange Hex].
  pose proof (step_transition props w ev) as Ht.
  destruct (SuperSwiper.step props w ev) as [w1 l1]. cbn [fst snd] in *.
  inversion Ht; subst; cbn [In] in Hin.
  - destruct Hin.
  - destruct Hin as [<- | []]. discriminate.
  - assert (SuperSwiper.currentIndex (SuperSwiper.controller w)
            < SuperSwiper.cards_length props) by (apply Hex; congruence).
    destruct Hin as [<- | [<- | []]].
    + destruct (SwipeDirection_eqb direction Left); cbn in Hi;
        injection Hi as <-; lia.
    + cbn in Hi. injection Hi as <-. lia.
  - destruct Hin.
  - destruct Hin as [<- | []]. discriminate.
  - destruct Hin.
Qed.

(** X12.  When [initialCardIndex] lies between 0 and the number of cards,
    every index handed to [onSwipedLeft], [onSwipedRight] or [onSwipeEnd] is
    the index of an existing card. *)
Theorem X12_notified_indices_are_cards {T : Type} (props : SuperSwiper.Props T)
  (evs : list SuperSwiper.Event) (n : Notification) (cardIndex : Z) :
  0 <= SuperSwiper.initialCardIndex props <= SuperSwiper.cards_length props ->
  In n (snd (SuperSwiper.run props evs (SuperSwiper.mountWidget props))) ->
  committedIndex n = Some cardIndex ->
  0 <= cardIndex < SuperSwiper.cards_length props.
Proof.
  intros Hinit. apply run_indices_valid.
  unfold cursorInRange. cbn. split; [exact Hinit | congruence].
Qed.

Lemma X12_notified_indices_are_cards_witness :
  let evs := [SuperSwiper.JumpToCardIndex 4; SuperSwiper.SwipeLeft;
              SuperSwiper.AnimationCallback true; SuperSwiper.SwipeRight;
              SuperSwiper.AnimationCallback true] in
  snd (SuperSwiper.run fiveCards evs (SuperSwiper.mountWidget fiveCards))
  = [OnSwipeStart Left; OnSwipedLeft 4; OnSwipeEnd 4] /\
  0 <= 4 < SuperSwiper.cards_length fiveCards.
Proof.
  intros evs.
  assert (Hlog : snd (SuperSwiper.run fiveCards evs (SuperSwiper.mountWidget fiveCards))
                 = [OnSwipeStart Left; OnSwipedLeft 4; OnSwipeEnd 4]) by reflexivity.
  split; [exact Hlog|].
  apply (X12_notified_indices_are_cards fiveCards evs (OnSwipedLeft 4) 4).
  - cbn. lia.
  - rewrite Hlog. cbn. right. left. reflexivity.
  - reflexivity.
Defined.

Lemma consumedIndices_cons (first : Z) (n : nat) :
  consumedIndices first (S n) = first :: consumedIndices (first + 1) n.
Proof.
  unfold consumedIndices. cbn [seq map]. rewrite Z.add_0_r. f_equal.
  rewrite <- seq_shift, map_map. apply map_ext. intros k. lia.
Qed.

Lemma swipeRightTimes_log {T : Type} (props : SuperSwiper.Props T) (n k : nat) :
  SuperSwiper.disableRightSwipe props = false ->
  0 < SuperSwiper.stackSize props ->
  0 <= SuperSwiper.initialCardIndex props ->
  SuperSwiper.initialCardIndex props + Z.of_nat (k + n)
    <= SuperSwiper.cards_length props ->
  snd (SuperSwiper.run props (swipeRightTimes n) (afterCommits props k))
  = flat_map rightSwipeNotifications
      (consumedIndices (SuperSwiper.initialCardIndex props + Z.of_nat k) n).
Proof.
  intros Hright Hstack Hinit. revert k.
  induction n as [|n IH]; intros k Hlen; [reflexivity|].
  cbn [swipeRightTimes]. rewrite !run_cons_snd.
  rewrite swipeRight_commit; try assumption; try reflexivity; [|cbn; lia].
  cbn [fst snd SuperSwiper.step SuperSwiper.exiting SuperSwiper.controller].
  rewrite animationFinished_eq. cbn [fst snd].
  change (SuperSwiper.completedState
            (SuperSwiper.withTransitioning true
               (SuperSwiper.controller (afterCommits props k))))
    with (SuperSwiper.completedState (SuperSwiper.controller (afterCommits props k))).
  rewrite completed_afterCommits, IH by lia.
  rewrite consumedIndices_cons. cbn [flat_map rightSwipeNotifications app].
  cbn [afterCommits SuperSwiper.controller SuperSwiper.currentIndex SwipeDirection_eqb].
  replace (SuperSwiper.initialCardIndex props + Z.of_nat (S k))
    with (SuperSwiper.initialCardIndex props + Z.of_nat k + 1) by lia.
  reflexivity.
Qed.

(** X13.  [n] programmatic right swipes from mount, each allowed to
    complete before the next, on a stack that has the [n] cards, end with the
    cursor advanced by [n] and the history holding the [n] consumed indices,
    and the embedder hears, for each consumed index in order, [onSwipeStart]
    with the right direction, [onSwipedRight] and [onSwipeEnd] with that
    index. *)
Theorem X13_right_swipes_in_sequence {T : Type} (props : SuperSwiper.Props T)
  (n : nat) :
  SuperSwiper.disableRightSwipe props = false ->
  0 < SuperSwiper.stackSize props ->
  0 <= SuperSwiper.initialCardIndex props ->
  SuperSwiper.initialCardIndex props + Z.of_nat n <= SuperSwiper.cards_length props ->
  SuperSwiper.run props (swipeRightTimes n) (SuperSwiper.mountWidget props)
  = ({| SuperSwiper.controller :=
          {| SuperSwiper.currentIndex :=
               SuperSwiper.initialCardIndex props + Z.of_nat n;
             SuperSwiper.isTransitioning := false;
             SuperSwiper.swipedCardIndices :=
               consumedIndices (SuperSwiper.initialCardIndex props) n;
             SuperSwiper.forceRenderKey := 0 |};
        SuperSwiper.exiting := None |},
     flat_map rightSwipeNotifications
       (consumedIndices (SuperSwiper.initialCardIndex props) n)).
Proof.
  intros Hright Hstack Hinit Hlen.
  rewrite (surjective_pairing
             (SuperSwiper.run props (swipeRightTimes n) (SuperSwiper.mountWidget props))).
  rewrite <- afterCommits_O.
  rewrite (swipeRightTimes_run props n 0) by (try assumption; cbn; lia).
  rewrite (swipeRightTimes_log props n 0) by (try assumption; cbn; lia).
  cbn [Nat.add Z.of_nat]. rewrite Z.add_0_r. reflexivity.
Qed.

Lemma X13_right_swipes_in_sequence_witness :
  SuperSwiper.run fiveCards (swipeRightTimes 3) (SuperSwiper.mountWidget fiveCards)
  = ({| SuperSwiper.controller :=
          {| SuperSwiper.currentIndex := 3;
             SuperSwiper.isTransitioning := false;
             SuperSwiper.swipedCardIndices := [0; 1; 2];
             SuperSwiper.forceRenderKey := 0 |};
        SuperSwiper.exiting := None |},
     [OnSwipeStart Right; OnSwipedRight 0; OnSwipeEnd 0;
      OnSwipeStart Right; OnSwipedRight 1; OnSwipeEnd 1;
      OnSwipeStart Right; OnSwipedRight 2; OnSwipeEnd 2]).
Proof.
  apply (X13_right_swipes_in_sequence fiveCards 3).
  - reflexivity.
  - cbn. lia.
  - cbn. lia.
  - cbn. lia.
Defined.

(** ** The later revision: a history of at most 50 *)

(** X14.  In the later revision a completion keeps the newest entries: the
    history becomes the old one without its oldest entries beyond 49,
    followed by the consumed index, so it never holds more than 50 entries
    and the consumed index is always its last; the cursor advances by 1 and
    the transition flag is cleared. *)
Theorem X14_revised_completion_keeps_newest (direction : SwipeDirection)
  (s : Revised.State) :
  let s' := snd (fst (Revised.handleSwipeComplete direction s)) in
  Revised.swipedCardIndices s'
  = skipn (length (Revised.swipedCardIndices s) - 49) (Revised.swipedCardIndices s)
    ++ [Revised.currentCardIndex s] /\
  length (Revised.swipedCardIndices s')
  = Nat.min (S (length (Revised.swipedCardIndices s))) 50 /\
  Revised.currentCardIndex s' = Revised.currentCardIndex s + 1 /\
  Revised.isTransitioning s' = false.
Proof.
  intros s'. subst s'. split; [apply Revised_complete_history|].
  split.
  - rewrite Revised_complete_history, length_app, length_skipn. cbn [length]. lia.
  - rewrite Revised_handleSwipeComplete_eq. split; reflexivity.
Qed.

Lemma Revised_swipeBack_eq (s : Revised.State) :
  Revised.swipeBack s
  = if (Revised.currentCardIndex s <=? 0)
       || Nat.eqb (length (Revised.swipedCardIndices s)) 0
    then (tt, s, [])
    else (tt,
          {| Revised.currentCardIndex := Revised.currentCardIndex s - 1;
             Revised.isTransitioning := Revised.isTransitioning s;
             Revised.swipedCardIndices := removelast (Revised.swipedCardIndices s) |},
          [OnSwipeBack]).
Proof.
  unfold_revised. cbn.
  destruct ((Revised.currentCardIndex s <=? 0)
            || Nat.eqb (length (Revised.swipedCardIndices s)) 0); reflexivity.
Qed.

Lemma revisedAfterCompletions_snoc {T : Type} (props : Revised.Props T)
  (directions : list SwipeDirection) (direction : SwipeDirection) :
  revisedAfterCompletions props (directions ++ [direction])
  = snd (fst (Revised.handleSwipeComplete direction
                (revisedAfterCompletions props directions))).
Proof.
  unfold revisedAfterCompletions. rewrite map_app, fold_left_app. reflexivity.
Qed.

Lemma revisedAfterCompletions_state {T : Type} (props : Revised.Props T)
  (directions : list SwipeDirection) :
  revisedAfterCompletions props directions
  = {| Revised.currentCardIndex := Z.of_nat (length directions);
       Revised.isTransitioning := false;
       Revised.swipedCardIndices :=
         consumedIndices (Z.of_nat (length directions - 50))
           (Nat.min (length directions) 50) |}.
Proof.
  induction directions as [|direction directions IH] using rev_ind; [reflexivity|].
  rewrite revisedAfterCompletions_snoc.
  pose proof (Revised_complete_history direction
                (revisedAfterCompletions props directions)) as Hh.
  rewrite Revised_handleSwipeComplete_eq in Hh |- *.
  cbn [fst snd Revised.swipedCardIndices] in Hh |- *.
  rewrite Hh. clear Hh. rewrite IH.
  cbn [Revised.currentCardIndex Revised.swipedCardIndices].
  rewrite consumedIndices_length, length_app. cbn [length].
  set (n := length directions).
  replace (Z.of_nat n + 1) with (Z.of_nat (n + 1)) by lia.
  f_equal.
  destruct (Nat.lt_ge_cases n 50) as [Hlt|Hge].
  - replace (Nat.min n 50) with n by lia.
    replace (n - 49)%nat with O by lia.
    replace (n - 50)%nat with O by lia.
    replace (n + 1 - 50)%nat with O by lia.
    replace (Nat.min (n + 1) 50) with (S n) by lia.
    cbn [skipn]. rewrite consumedIndices_S. reflexivity.
  - replace (Nat.min n 50) with 50%nat by lia.
    replace (Nat.min (n + 1) 50) with 50%nat by lia.
    replace (50 - 49)%nat with 1%nat by lia.
    rewrite (consumedIndices_cons (Z.of_nat (n - 50)) 49). cbn [skipn].
    rewrite (consumedIndices_S (Z.of_nat (n + 1 - 50)) 49).
    replace (Z.of_nat (n + 1 - 50)) with (Z.of_nat (n - 50) + 1) by lia.
    replace (Z.of_nat (n - 50) + 1 + Z.of_nat 49) with (Z.of_nat n) by lia.
    reflexivity.
Qed.

Lemma Revised_swipeBackSeen_eq (seen s : Revised.State) :
  Revised.swipeBackSeen seen s
  = if (Revised.currentCardIndex seen <=? 0)
       || Nat.eqb (length (Revised.swipedCardIndices seen)) 0
    then (tt, s, [])
    else (tt,
          {| Revised.currentCardIndex := Revised.currentCardIndex s - 1;
             Revised.isTransitioning := Revised.isTransitioning s;
             Revised.swipedCardIndices := removelast (Revised.swipedCardIndices s) |},
          [OnSwipeBack]).
Proof.
  unfold Revised.swipeBackSeen.
  destruct ((Revised.currentCardIndex seen <=? 0)
            || Nat.eqb (length (Revised.swipedCardIndices seen)) 0); reflexivity.
Qed.

(** Called right after a render, the handle's [swipeBack] is the handler
    of the listing run on the state as it is. *)
Lemma Revised_swipeBack_at_render (s : Revised.State) :
  Revised.swipeBackSeen s s = Revised.swipeBack s.
Proof. rewrite Revised_swipeBackSeen_eq, Revised_swipeBack_eq. reflexivity. Qed.

Lemma revisedSwipeBackRendered_consumed (first : Z) (m : nat) (transitioning : bool) :
  0 <= first ->
  revisedSwipeBackRendered m
    {| Revised.currentCardIndex := first + Z.of_nat m;
       Revised.isTransitioning := transitioning;
       Revised.swipedCardIndices := consumedIndices first m |}
  = {| Revised.currentCardIndex := first;
       Revised.isTransitioning := transitioning;
       Revised.swipedCardIndices := [] |}.
Proof.
  intros Hfirst. induction m as [|m IH].
  - cbn. rewrite Z.add_0_r. reflexivity.
  - cbn [revisedSwipeBackRendered]. rewrite Revised_swipeBackSeen_eq.
    cbn [Revised.currentCardIndex Revised.swipedCardIndices Revised.isTransitioning].
    rewrite consumedIndices_length.
    destruct (Z.leb_spec (first + Z.of_nat (S m)) 0); [lia|].
    cbn [orb Nat.eqb fst snd].
    rewrite consumedIndices_S, removelast_last.
    replace (first + Z.of_nat (S m) - 1) with (first + Z.of_nat m) by lia.
    exact IH.
Qed.

Lemma removelast_as_firstn {A : Type} (l : list A) :
  removelast l = firstn (length l - 1) l.
Proof.
  destruct l as [|a l]; [reflexivity|].
  destruct (exists_last (l := a :: l)) as (l' & x & Heq); [discriminate|].
  rewrite Heq, removelast_last, length_app. cbn [length].
  replace (length l' + 1 - 1)%nat with (length l') by lia.
  rewrite firstn_app, Nat.sub_diag, firstn_all. cbn [firstn].
  rewrite app_nil_r. reflexivity.
Qed.

Lemma revisedSwipeBackInTick_state (seen : Revised.State) (k : nat) (s : Revised.State) :
  (Revised.currentCardIndex seen <=? 0)
  || Nat.eqb (length (Revised.swipedCardIndices seen)) 0 = false ->
  revisedSwipeBackInTick seen k s
  = {| Revised.currentCardIndex := Revised.currentCardIndex s - Z.of_nat k;
       Revised.isTransitioning := Revised.isTransitioning s;
       Revised.swipedCardIndices :=
         firstn (length (Revised.swipedCardIndices s) - k)
           (Revised.swipedCardIndices s) |}.
Proof.
  intros Hguard. revert s. induction k as [|k IH]; intros s.
  - cbn [revisedSwipeBackInTick]. rewrite Nat.sub_0_r, firstn_all, Z.sub_0_r.
    destruct s; reflexivity.
  - cbn [revisedSwipeBackInTick]. rewrite Revised_swipeBackSeen_eq, Hguard.
    cbn [fst snd]. rewrite IH.
    cbn [Revised.currentCardIndex Revised.isTransitioning Revised.swipedCardIndices].
    f_equal; [lia|].
    rewrite removelast_as_firstn, firstn_firstn, length_firstn.
    f_equal. lia.
Qed.

(** X15.  In the later revision, after [n] completions from mount, each
    seen by a render, the cursor is [n] and the history holds the last
    [min n 50] consumed indices.  [min n 50] calls of [swipeBack], each made
    after the component has re-rendered, empty the history and leave the
    cursor at [n - min n 50], where a further [swipeBack] changes nothing and
    notifies nobody.  [k] calls made in one tick instead all pass the guard
    of the last render (when [n] is not 0) and take [k] from the cursor and
    the [k] newest entries from the history, whatever is left of it. *)
Theorem X15_revised_undo_depth {T : Type} (props : Revised.Props T)
  (directions : list SwipeDirection) (k : nat) :
  let n := length directions in
  let s := revisedAfterCompletions props directions in
  s = {| Revised.currentCardIndex := Z.of_nat n;
         Revised.isTransitioning := false;
         Revised.swipedCardIndices :=
           consumedIndices (Z.of_nat (n - 50)) (Nat.min n 50) |} /\
  revisedSwipeBackRendered (Nat.min n 50) s
  = {| Revised.currentCardIndex := Z.of_nat (n - 50);
       Revised.isTransitioning := false;
       Revised.swipedCardIndices := [] |} /\
  Revised.swipeBackSeen (revisedSwipeBackRendered (Nat.min n 50) s)
    (revisedSwipeBackRendered (Nat.min n 50) s)
  = (tt, revisedSwipeBackRendered (Nat.min n 50) s, []) /\
  (n <> O ->
   revisedSwipeBackInTick s k s
   = {| Revised.currentCardIndex := Z.of_nat n - Z.of_nat k;
        Revised.isTransitioning := false;
        Revised.swipedCardIndices :=
          firstn (Nat.min n 50 - k)
            (consumedIndices (Z.of_nat (n - 50)) (Nat.min n 50)) |}).
Proof.
  intros n s. subst s.
  assert (Hs : revisedAfterCompletions props directions
               = {| Revised.currentCardIndex := Z.of_nat n;
                    Revised.isTransitioning := false;
                    Revised.swipedCardIndices :=
                      consumedIndices (Z.of_nat (n - 50)) (Nat.min n 50) |})
    by apply revisedAfterCompletions_state.
  assert (Hback : revisedSwipeBackRendered (Nat.min n 50)
                    (revisedAfterCompletions props directions)
                  = {| Revised.currentCardIndex := Z.of_nat (n - 50);
                       Revised.isTransitioning := false;
                       Revised.swipedCardIndices := [] |}).
  { rewrite Hs.
    replace (Z.of_nat n) with (Z.of_nat (n - 50) + Z.of_nat (Nat.min n 50)) by lia.
    apply revisedSwipeBackRendered_consumed. lia. }
  split; [exact Hs | split; [exact Hback | split]].
  - rewrite Hback, Revised_swipeBackSeen_eq.
    cbn [Revised.swipedCardIndices length Nat.eqb].
    rewrite orb_true_r. reflexivity.
  - intros Hn. rewrite Hs. rewrite revisedSwipeBackInTick_state.
    + cbn [Revised.currentCardIndex Revised.isTransitioning Revised.swipedCardIndices].
      rewrite consumedIndices_length. reflexivity.
    + cbn [Revised.currentCardIndex Revised.swipedCardIndices].
      rewrite consumedIndices_length.
      destruct (Z.leb_spec (Z.of_nat n) 0); [lia|].
      destruct (Nat.min n 50) eqn:Hmin; [lia | reflexivity].
Qed.

Lemma X15_revised_undo_depth_witness :
  let directions := repeat Right 51 in
  let s := revisedAfterCompletions fiveCardsRevised directions in
  length directions <> O /\
  Revised.currentCardIndex (revisedSwipeBackRendered 50 s) = 1 /\
  Revised.currentCardIndex (revisedSwipeBackInTick s 51 s) = 0.
Proof.
  intros directions s.
  assert (Hn : length directions <> O) by discriminate.
  destruct (X15_revised_undo_depth fiveCardsRevised directions 51)
    as (_ & Hrendered & _ & Htick).
  split; [exact Hn|]. split.
  - change 50%nat with (Nat.min (length directions) 50) at 1.
    unfold s. rewrite Hrendered. reflexivity.
  - unfold s. rewrite (Htick Hn). reflexivity.
Defined.

(** ** The later revision: advisory prop validation *)

(** X16.  The development-mode validation of the later revision logs no
    warning exactly when it is switched off or the three props are in range
    ([stackSize > 0], [swipeThreshold > 0], [0 <= cardScaleStep <= 1]); in
    development mode each out-of-range prop gets its own warning, and no
    in-range prop does. *)
Theorem X16_dev_warnings (DEV : bool) (stackSize : Z)
  (swipeThreshold cardScaleStep : Q) :
  (devWarnings DEV stackSize swipeThreshold cardScaleStep = [] <->
   DEV = false \/
   (0 < stackSize /\ (0 < swipeThreshold)%Q
    /\ (0 <= cardScaleStep)%Q /\ (cardScaleStep <= 1)%Q)) /\
  (In StackSizeWarning (devWarnings true stackSize swipeThreshold cardScaleStep)
   <-> stackSize <= 0) /\
  (In SwipeThresholdWarning (devWarnings true stackSize swipeThreshold cardScaleStep)
   <-> (swipeThreshold <= 0)%Q) /\
  (In CardScaleStepWarning (devWarnings true stackSize swipeThreshold cardScaleStep)
   <-> (cardScaleStep < 0)%Q \/ (1 < cardScaleStep)%Q).
Proof.
  unfold devWarnings.
  assert (H1 : (stackSize <=? 0) = true <-> stackSize <= 0) by apply Z.leb_le.
  assert (H1' : (stackSize <=? 0) = false <-> 0 < stackSize) by apply Z.leb_gt.
  assert (H2 : Qle_bool swipeThreshold 0 = true <-> (swipeThreshold <= 0)%Q)
    by apply Qle_bool_iff.
  assert (H2' : Qle_bool swipeThreshold 0 = false <-> (0 < swipeThreshold)%Q).
  { split.
    - intros E. apply Qnot_le_lt. intros Hc. apply Qle_bool_iff in Hc. congruence.
    - intros Hlt. apply not_true_is_false. intros E.
      apply Qle_bool_iff in E. exact (Qlt_not_le _ _ Hlt E). }
  assert (H3 : Qgt_bool 0 cardScaleStep || Qgt_bool cardScaleStep 1 = true
               <-> (cardScaleStep < 0)%Q \/ (1 < cardScaleStep)%Q).
  { rewrite orb_true_iff, !Qgt_bool_iff. reflexivity. }
  assert (H3' : Qgt_bool 0 cardScaleStep || Qgt_bool cardScaleStep 1 = false
                <-> (0 <= cardScaleStep)%Q /\ (cardScaleStep <= 1)%Q).
  { rewrite orb_false_iff, !Qgt_bool_false_iff. reflexivity. }
  destruct (stackSize <=? 0);
    destruct (Qle_bool swipeThreshold 0);
    destruct (Qgt_bool 0 cardScaleStep || Qgt_bool cardScaleStep 1);
    destruct DEV; cbn [app In];
    intuition (try discriminate; try congruence).
Qed.

(** ** Starts and ends *)

Lemma startsIn_app (l1 l2 : list Notification) :
  startsIn (l1 ++ l2) = (startsIn l1 + startsIn l2)%nat.
Proof. unfold startsIn. rewrite filter_app, length_app. reflexivity. Qed.

Lemma endsIn_app (l1 l2 : list Notification) :
  endsIn (l1 ++ l2) = (endsIn l1 + endsIn l2)%nat.
Proof. unfold endsIn. rewrite filter_app, length_app. reflexivity. Qed.

Lemma step_starts_ends {T : Type} (props : SuperSwiper.Props T)
  (w : SuperSwiper.Widget) (ev : SuperSwiper.Event) :
  (endsIn (snd (SuperSwiper.step props w ev))
   + inFlight (fst (SuperSwiper.step props w ev))
   <= startsIn (snd (SuperSwiper.step props w ev)) + inFlight w)%nat.
Proof.
  pose proof (step_transition props w ev) as Ht.
  destruct (SuperSwiper.step props w ev) as [w1 l1]. cbn [fst snd] in *.
  inversion Ht; subst; unfold inFlight; cbn [SuperSwiper.exiting].
  - cbn. lia.
  - cbn. destruct (SuperSwiper.exiting w); lia.
  - match goal with H : SuperSwiper.exiting w = Some _ |- _ => rewrite H end.
    destruct (SwipeDirection_eqb direction Left); cbn; lia.
  - cbn. lia.
  - cbn. lia.
  - cbn. lia.
Qed.

Lemma run_starts_ends {T : Type} (props : SuperSwiper.Props T)
  (evs : list SuperSwiper.Event) (w : SuperSwiper.Widget) :
  (endsIn (snd (SuperSwiper.run props evs w))
   + inFlight (fst (SuperSwiper.run props evs w))
   <= startsIn (snd (SuperSwiper.run props evs w)) + inFlight w)%nat.
Proof.
  revert w. induction evs as [|ev evs IH]; intros w; [cbn; lia|].
  rewrite run_cons_fst, run_cons_snd, startsIn_app, endsIn_app.
  pose proof (step_starts_ends props w ev).
  pose proof (IH (fst (SuperSwiper.step props w ev))). lia.
Qed.

(** X17.  Whatever is done to a mounted widget, the embedder never hears
    more [onSwipeEnd] calls than [onSwipeStart] calls, and while an exit
    animation is in flight it has heard strictly fewer: every completion
    belongs to a swipe that was announced, and no swipe completes twice. *)
Theorem X17_ends_never_exceed_starts {T : Type} (props : SuperSwiper.Props T)
  (evs : list SuperSwiper.Event) :
  (endsIn (snd (SuperSwiper.run props evs (SuperSwiper.mountWidget props)))
   + inFlight (fst (SuperSwiper.run props evs (SuperSwiper.mountWidget props)))
   <= startsIn (snd (SuperSwiper.run props evs (SuperSwiper.mountWidget props))))%nat.
Proof.
  pose proof (run_starts_ends props evs (SuperSwiper.mountWidget props)) as H.
  change (inFlight (SuperSwiper.mountWidget props)) with O in H. lia.
Qed.
